(** * Introduction to PyMC (notebook): the code cells and the functions they define

    The repository is one Jupyter notebook, [notebooks/Introduction to PyMC.ipynb].
    Its code cells are modelled twice:

    - the values the notebook's own expressions and functions compute
      ([failure], [lam], [survival], [rate]) are Rocq functions over lists,
      with NumPy's elementwise operations, broadcasting and slice assignment
      written out in module [Numpy];
    - the statements of the code cells are kept as a Python syntax tree
      (module [Ast], value [Notebook.notebook]), on which the calls the
      notebook makes, the names it binds and the order of its steps are
      computed (module [Analysis]), and which is run against library
      operations that may fail (module [Errors]).

    Floating point numbers are modelled by the reals: rounding, overflow and
    NaN are outside the model. *)

From Stdlib Require Import String ZArith Reals Lra Lia Bool Arith List.
Import ListNotations.

(* ================================================================== *)
(** * NumPy and built-in operations used by the notebook *)
(* ================================================================== *)

Module Numpy.

Local Open Scope R_scope.

(** [a == k] for an integer array and a scalar: elementwise comparison. *)
Definition eq_scalar (a : list Z) (k : Z) : list bool :=
  map (fun c => Z.eqb c k) a.

(** [a.astype(int)] on a boolean array. *)
Definition astype_int (a : list bool) : list Z :=
  map (fun b : bool => if b then 1%Z else 0%Z) a.

(** An integer array promoted to floats, as NumPy does when it meets a
    float operand. *)
Definition as_float (a : list Z) : list R := map IZR a.

(** [k * a] and [k + a] for a scalar [k]. *)
Definition scalar_mul (k : R) (a : list R) : list R := map (Rmult k) a.
Definition scalar_add (k : R) (a : list R) : list R := map (Rplus k) a.

(** [np.exp] and [np.log], elementwise, as the real functions.  The code
    computes in float64: its [exp] is rounded, is 0.0 below about -745 and
    [inf] above about 709, and its [log] is [-inf] at 0 and [nan] below, where
    [ln] is 0.  What is stated with them holds of the code on positive
    arguments of [log] and up to rounding and range, unless the statement
    (such as a sign) is not affected. *)
Definition exp (a : list R) : list R := map Rtrigo_def.exp a.
Definition log (a : list R) : list R := map ln a.

(** Elementwise operation on two arrays of the same length. *)
Definition zip_with (op : R -> R -> R) (a b : list R) : list R :=
  map (fun p => op (fst p) (snd p)) (combine a b).

(** A binary operator on two one-dimensional arrays: the shapes must be
    equal, or one of them is 1 and that operand is stretched; any other
    pair of shapes is a [ValueError], here [None]. *)
Definition broadcast (op : R -> R -> R) (a b : list R) : option (list R) :=
  if (length a =? length b)%nat then Some (zip_with op a b)
  else if (length b =? 1)%nat then Some (map (fun x => op x (hd 0 b)) a)
  else if (length a =? 1)%nat then Some (map (fun y => op (hd 0 a) y) b)
  else None.

Definition mul := broadcast Rmult.
Definition sub := broadcast Rminus.

(** The built-in [sum]: starts from 0 and adds the elements from the left. *)
Definition builtin_sum (a : list R) : R := fold_left Rplus a 0.

(** [np.empty(n)]: an array of length [n] whose contents are whatever the
    allocated memory holds, given by [uninit]. *)
Definition empty (uninit : nat -> R) (n : nat) : list R :=
  map uninit (seq 0 n).

(** A slice bound [k] on an array of length [n], as [slice.indices] clamps
    it: a negative bound counts from the end. *)
Definition clamp (n : nat) (k : Z) : nat :=
  if (k <? 0)%Z then Z.to_nat (Z.max 0 (k + Z.of_nat n))
  else Z.to_nat (Z.min k (Z.of_nat n)).

(** [a[start:stop] = v] on positions already clamped; [i] is the index of
    the head of [a]. *)
Fixpoint fill (i : nat) (a : list R) (start stop : nat) (v : R) : list R :=
  match a with
  | [] => []
  | x :: a' =>
      (if (start <=? i)%nat && (i <? stop)%nat then v else x)
        :: fill (S i) a' start stop v
  end.

(** [a[:k] = v] *)
Definition setitem_upto (a : list R) (k : Z) (v : R) : list R :=
  fill 0 a 0 (clamp (length a) k) v.

(** [a[k:] = v] *)
Definition setitem_from (a : list R) (k : Z) (v : R) : list R :=
  fill 0 a (clamp (length a) k) (length a) v.

End Numpy.

(* ================================================================== *)
(** * The values the notebook's own code computes *)
(* ================================================================== *)

Module Model.

Local Open Scope R_scope.

(** [failure = (data.censored==0).astype(int)] *)
Definition failure (censored : list Z) : list Z :=
  Numpy.astype_int (Numpy.eq_scalar censored 0).

(** [lam = Lambda('lam', lambda b0=beta0, b1=beta1, tr=data.treat:
                          np.exp(b0 + b1*tr))] : the function of the node. *)
Definition lam (b0 b1 : R) (tr : list R) : list R :=
  Numpy.exp (Numpy.scalar_add b0 (Numpy.scalar_mul b1 tr)).

(** [def survival(value=data.t, lam=lam, f=failure):
       return sum(f*np.log(lam) - lam*value)]
    [f] is the integer array [failure]. *)
Definition survival (value lam : list R) (f : list Z) : option R :=
  match Numpy.mul (Numpy.as_float f) (Numpy.log lam), Numpy.mul lam value with
  | Some flog, Some lv =>
      match Numpy.sub flog lv with
      | Some d => Some (Numpy.builtin_sum d)
      | None => None
      end
  | _, _ => None
  end.

Section Disasters.

(** [disasters_array] is imported from [pymc.examples.disaster_model];
    only its length is used.  [uninit] is the content of fresh memory. *)
Variable disasters_array : list Z.
Variable uninit : nat -> R.

(** The function of the deterministic node [rate]:
    [out = np.empty(len(disasters_array)); out[:s] = e; out[s:] = l;
     return out] *)
Definition rate (s : Z) (e l : R) : list R :=
  let out := Numpy.empty uninit (length disasters_array) in
  let out := Numpy.setitem_upto out s e in
  let out := Numpy.setitem_from out s l in
  out.

(** The function [rate] nested in [missing_data_model]. *)
Definition missing_data_model_rate (s : Z) (e l : R) : list R :=
  let out := Numpy.empty uninit (length disasters_array) in
  let out := Numpy.setitem_upto out s e in
  let out := Numpy.setitem_from out s l in
  out.

End Disasters.

(** The sum of [g 0 .. g (n-1)]. *)
Fixpoint sum_below (n : nat) (g : nat -> R) : R :=
  match n with
  | O => 0
  | S k => sum_below k g + g k
  end.

(** The contribution of observation [i] to the survival log-likelihood:
    [f_i * log(lam_i) - lam_i * t_i]. *)
Definition survival_term (t lam : list R) (f : list Z) (i : nat) : R :=
  IZR (nth i f 0%Z) * ln (nth i lam 0) - nth i lam 0 * nth i t 0.

(** The array-valued expressions and functions the notebook defines. *)
Inductive own_expression : Type :=
| FailureExpression
| LamExpression
| RateFunction
| MissingDataRateFunction.

Definition nonnegative (a : list R) : Prop := Forall (fun x => 0 <= x) a.

(** Every element of the result is non-negative, whatever the inputs (and,
    for [rate], whatever the series and the fresh memory). *)
Definition guarantees_nonnegative (x : own_expression) : Prop :=
  match x with
  | FailureExpression =>
      forall censored, nonnegative (Numpy.as_float (failure censored))
  | LamExpression => forall b0 b1 tr, nonnegative (lam b0 b1 tr)
  | RateFunction => forall d u s e l, nonnegative (rate d u s e l)
  | MissingDataRateFunction =>
      forall d u s e l, nonnegative (missing_data_model_rate d u s e l)
  end.

End Model.

(* ================================================================== *)
(** * Python syntax of the code cells *)
(* ================================================================== *)

Module Ast.

#[local] Set Warnings "-register-all".

Inductive operator : Type := Add | Sub | Mult | Div.

Inductive cmpop : Type := Eq | NotEq | Lt | Gt.

(** Expressions.  [Slice v lo hi] is the subscript [v[lo:hi]]; a float
    literal keeps its digits as written. *)
Inductive expr : Type :=
| Name (id : string)
| Num (n : Z)
| FloatLit (digits : string)
| Str (s : string)
| NoneConst
| TrueConst
| FalseConst
| Attribute (value : expr) (attr : string)
| Call (func : expr) (args : list expr) (keywords : list (string * expr))
| BinOp (left : expr) (op : operator) (right : expr)
| Compare (left : expr) (op : cmpop) (right : expr)
| Slice (value : expr) (lower upper : option expr)
| ListE (elts : list expr)
| TupleE (elts : list expr)
| Lambda (params : list (string * option expr)) (body : expr).

(** Statements.  The notebook uses the first seven; the others are the
    statements of Python that branch, loop, handle or raise errors, check or
    delete. A docstring is an [Expr (Str _)] at the head of a body, as in
    Python's own syntax tree.  [Try body handler final] stands for
    [try: body / except: handler / finally: final]. *)
Inductive stmt : Type :=
| Magic (line : string)
| Import (module : string) (asname : option string)
| ImportFrom (module : string) (names : list (string * option string))
| Assign (target value : expr)
| Expr (value : expr)
| FunctionDef (name : string) (decorator_list : list expr)
    (params : list (string * option expr)) (body : list stmt)
| Return (value : option expr)
| If (test : expr) (body orelse : list stmt)
| For (target iter : expr) (body : list stmt)
| While (test : expr) (body : list stmt)
| Try (body handler final : list stmt)
| With (item : expr) (body : list stmt)
| Raise (exc : option expr)
| Assert (test : expr)
| Delete (target : expr).

Definition of_option {A : Type} (o : option A) : list A :=
  match o with Some a => [a] | None => [] end.

(** The default values of a parameter list. *)
Definition defaults (ps : list (string * option expr)) : list expr :=
  flat_map (fun p => of_option (snd p)) ps.

(** Every expression inside [e], [e] first. *)
Fixpoint subexprs (e : expr) : list expr :=
  e :: match e with
       | Name _ | Num _ | FloatLit _ | Str _
       | NoneConst | TrueConst | FalseConst => []
       | Attribute v _ => subexprs v
       | Call f args kws =>
           subexprs f ++ flat_map subexprs args
             ++ flat_map (fun kv => subexprs (snd kv)) kws
       | BinOp l _ r => subexprs l ++ subexprs r
       | Compare l _ r => subexprs l ++ subexprs r
       | Slice v lo hi =>
           subexprs v
             ++ match lo with Some a => subexprs a | None => [] end
             ++ match hi with Some a => subexprs a | None => [] end
       | ListE es => flat_map subexprs es
       | TupleE es => flat_map subexprs es
       | Lambda ps b =>
           flat_map (fun p => match snd p with
                              | Some d => subexprs d
                              | None => []
                              end) ps
             ++ subexprs b
       end.

(** Induction on expressions, with the hypotheses for the expressions
    nested in lists, options and pairs. *)
Section ExprInduction.

Variable P : expr -> Prop.

Hypothesis HName : forall id, P (Name id).
Hypothesis HNum : forall n, P (Num n).
Hypothesis HFloatLit : forall d, P (FloatLit d).
Hypothesis HStr : forall s, P (Str s).
Hypothesis HNoneConst : P NoneConst.
Hypothesis HTrueConst : P TrueConst.
Hypothesis HFalseConst : P FalseConst.
Hypothesis HAttribute : forall v a, P v -> P (Attribute v a).
Hypothesis HCall : forall f args kws,
    P f -> Forall P args -> Forall (fun kv => P (snd kv)) kws ->
    P (Call f args kws).
Hypothesis HBinOp : forall l op r, P l -> P r -> P (BinOp l op r).
Hypothesis HCompare : forall l op r, P l -> P r -> P (Compare l op r).
Hypothesis HSlice : forall v lo hi,
    P v -> Forall P (of_option lo) -> Forall P (of_option hi) ->
    P (Slice v lo hi).
Hypothesis HListE : forall es, Forall P es -> P (ListE es).
Hypothesis HTupleE : forall es, Forall P es -> P (TupleE es).
Hypothesis HLambda : forall ps b,
    Forall (fun p => Forall P (of_option (snd p))) ps -> P b ->
    P (Lambda ps b).

Fixpoint expr_induction (e : expr) : P e :=
  let all :=
    fix all (l : list expr) : Forall P l :=
      match l with
      | [] => Forall_nil P
      | x :: l' => Forall_cons x (expr_induction x) (all l')
      end in
  let opt := fun o : option expr =>
    match o return Forall P (of_option o) with
    | Some a => Forall_cons a (expr_induction a) (Forall_nil P)
    | None => Forall_nil P
    end in
  match e with
  | Name id => HName id
  | Num n => HNum n
  | FloatLit d => HFloatLit d
  | Str s => HStr s
  | NoneConst => HNoneConst
  | TrueConst => HTrueConst
  | FalseConst => HFalseConst
  | Attribute v a => HAttribute v a (expr_induction v)
  | Call f args kws =>
      HCall f args kws (expr_induction f) (all args)
        ((fix kw (l : list (string * expr))
            : Forall (fun kv => P (snd kv)) l :=
            match l with
            | [] => Forall_nil _
            | kv :: l' => Forall_cons kv (expr_induction (snd kv)) (kw l')
            end) kws)
  | BinOp l op r => HBinOp l op r (expr_induction l) (expr_induction r)
  | Compare l op r => HCompare l op r (expr_induction l) (expr_induction r)
  | Slice v lo hi => HSlice v lo hi (expr_induction v) (opt lo) (opt hi)
  | ListE es => HListE es (all es)
  | TupleE es => HTupleE es (all es)
  | Lambda ps b =>
      HLambda ps b
        ((fix par (l : list (string * option expr))
            : Forall (fun p => Forall P (of_option (snd p))) l :=
            match l with
            | [] => Forall_nil _
            | p :: l' => Forall_cons p (opt (snd p)) (par l')
            end) ps)
        (expr_induction b)
  end.

End ExprInduction.

(** The expressions a statement holds itself (not those of nested statements). *)
Definition own_exprs (s : stmt) : list expr :=
  match s with
  | Magic _ | Import _ _ | ImportFrom _ _ => []
  | Assign t v => [t; v]
  | Expr v => [v]
  | FunctionDef _ ds ps _ => ds ++ defaults ps
  | Return v => of_option v
  | If t _ _ => [t]
  | For t i _ => [t; i]
  | While t _ => [t]
  | Try _ _ _ => []
  | With i _ => [i]
  | Raise e => of_option e
  | Assert t => [t]
  | Delete t => [t]
  end.

(** Every statement inside [s], [s] first. *)
Fixpoint substmts (s : stmt) : list stmt :=
  s :: match s with
       | FunctionDef _ _ _ b => flat_map substmts b
       | If _ b o => flat_map substmts b ++ flat_map substmts o
       | For _ _ b => flat_map substmts b
       | While _ b => flat_map substmts b
       | Try b h f =>
           flat_map substmts b ++ flat_map substmts h ++ flat_map substmts f
       | With _ b => flat_map substmts b
       | _ => []
       end.

(** Every statement, and every expression, of a list of statements. *)
Definition stmts_of (ss : list stmt) : list stmt := flat_map substmts ss.

Definition exprs_of (ss : list stmt) : list expr :=
  flat_map subexprs (flat_map own_exprs (stmts_of ss)).

End Ast.

(* ================================================================== *)
(** * The code cells of the notebook *)
(* ================================================================== *)

Module Notebook.

Import Ast.
Local Open Scope string_scope.

(** [cell_k] is the code cell at position [k] of the notebook's cell list
    (the positions in between are markdown cells). *)

Definition cell_1 : list stmt :=
  [
    Magic "%matplotlib inline";
    Import "seaborn" (Some "sns");
    Expr (Call (Attribute (Name "sns") "set_context") [Str "notebook"] []);
    ImportFrom "pymc" [("Normal", None); ("Lambda", None); ("observed", None); ("MCMC", None);
      ("Matplot", None); ("Uniform", None)];
    ImportFrom "pymc.examples" [("melanoma_data", Some "data")];
    Import "numpy" (Some "np");
    Assign (Name "failure")
      (Call (Attribute (Compare (Attribute (Name "data") "censored") Eq (Num 0)) "astype")
        [Name "int"] []);
    Assign (Name "beta0")
      (Call (Name "Normal") [Str "beta0"] [("mu", FloatLit "0.0"); ("tau", FloatLit "0.0001");
        ("value", FloatLit "0.0")]);
    Assign (Name "beta1")
      (Call (Name "Normal") [Str "beta1"] [("mu", FloatLit "0.0"); ("tau", FloatLit "0.0001");
        ("value", FloatLit "0.0")]);
    Assign (Name "lam")
      (Call (Name "Lambda") [Str "lam"; Lambda [("b0", Some (Name "beta0"));
        ("b1", Some (Name "beta1"));
        ("tr", Some (Attribute (Name "data") "treat"))] (Call (Attribute (Name "np") "exp")
        [BinOp (Name "b0") Add (BinOp (Name "b1") Mult (Name "tr"))] [])] []);
    FunctionDef "survival" [Name "observed"]
      [("value", Some (Attribute (Name "data") "t")); ("lam", Some (Name "lam"));
        ("f", Some (Name "failure"))]
      [
        Expr (Str "Exponential survival likelihood, accounting for censoring");
        Return (Some (Call (Name "sum") [BinOp (BinOp (Name "f") Mult (Call (Attribute
          (Name "np") "log") [Name "lam"] [])) Sub (BinOp (Name "lam") Mult (Name "value"))]
          [])) ] ].

Definition cell_3 : list stmt :=
  [
    Assign (Name "M")
      (Call (Name "MCMC") [ListE [Name "beta0"; Name "beta1"; Name "lam";
        Name "survival"]] [("db", Str "pickle")]);
    Expr (Call (Attribute (Name "M") "sample") [] [("iter", Num 10000); ("burn", Num 5000)]) ].

Definition cell_4 : list stmt :=
  [
    Expr (Call (Attribute (Name "Matplot") "plot") [Name "beta1"] []) ].

Definition cell_6 : list stmt :=
  [
    ImportFrom "pymc.examples.disaster_model" [("disasters_array", None)];
    Import "matplotlib.pyplot" (Some "plt");
    Assign (Name "n_count_data")
      (Call (Name "len") [Name "disasters_array"] []);
    Expr (Call (Attribute (Name "plt") "figure") [] [("figsize", TupleE [FloatLit "12.5";
      FloatLit "3.5"])]);
    Expr (Call (Attribute (Name "plt") "bar") [Call (Attribute (Name "np") "arange") [Num 1851;
      Num 1962] []; Name "disasters_array"] [("color", Str "#348ABD")]);
    Expr (Call (Attribute (Name "plt") "xlabel") [Str "Year"] []);
    Expr (Call (Attribute (Name "plt") "ylabel") [Str "Disasters"] []);
    Expr (Call (Attribute (Name "plt") "title") [Str "UK coal mining disasters, 1851-1962"] []);
    Expr (Call (Attribute (Name "plt") "xlim") [Num 1851; Num 1962] []) ].

Definition cell_8 : list stmt :=
  [
    ImportFrom "pymc" [("DiscreteUniform", None); ("Exponential", None); ("Poisson", None);
      ("deterministic", None)];
    Assign (Name "switchpoint")
      (Call (Name "DiscreteUniform") [Str "switchpoint"] [("lower", Num 0); ("upper", Num 110);
        ("value", Num 50)]) ].

Definition cell_10 : list stmt :=
  [
    Assign (Name "early_mean")
      (Call (Name "Exponential") [Str "early_mean"] [("beta", FloatLit "1.");
        ("value", FloatLit "0.1")]);
    Assign (Name "late_mean")
      (Call (Name "Exponential") [Str "late_mean"] [("beta", FloatLit "1.");
        ("value", Num 1)]) ].

Definition cell_12 : list stmt :=
  [
    FunctionDef "rate" [Call (Name "deterministic") [] [("plot", FalseConst)]]
      [("s", Some (Name "switchpoint")); ("e", Some (Name "early_mean"));
        ("l", Some (Name "late_mean"))]
      [
        Expr (Str " Concatenate Poisson means ");
        Assign (Name "out")
          (Call (Attribute (Name "np") "empty") [Call (Name "len") [Name "disasters_array"]
            []] []);
        Assign (Slice (Name "out") None (Some (Name "s")))
          (Name "e");
        Assign (Slice (Name "out") (Some (Name "s")) None)
          (Name "l");
        Return (Some (Name "out")) ] ].

Definition cell_14 : list stmt :=
  [
    Assign (Name "disasters")
      (Call (Name "Poisson") [Str "disasters"] [("mu", Name "rate");
        ("value", Name "disasters_array"); ("observed", TrueConst)]) ].

Definition cell_15 : list stmt :=
  [
    Expr (Attribute (Name "disasters") "logp") ].

Definition cell_18 : list stmt :=
  [
    Expr (Attribute (Name "switchpoint") "parents") ].

Definition cell_20 : list stmt :=
  [
    Expr (Attribute (Name "disasters") "parents") ].

Definition cell_21 : list stmt :=
  [
    Expr (Attribute (Name "rate") "parents") ].

Definition cell_23 : list stmt :=
  [
    Expr (Attribute (Name "rate") "children") ].

Definition cell_27 : list stmt :=
  [
    Expr (Attribute (Name "disasters") "value") ].

Definition cell_29 : list stmt :=
  [
    Expr (Attribute (Name "switchpoint") "value") ].

Definition cell_30 : list stmt :=
  [
    Expr (Attribute (Name "early_mean") "value") ].

Definition cell_31 : list stmt :=
  [
    Expr (Attribute (Name "late_mean") "value") ].

Definition cell_33 : list stmt :=
  [
    Expr (Attribute (Name "rate") "value") ].

Definition cell_35 : list stmt :=
  [
    Expr (Attribute (Name "switchpoint") "logp") ].

Definition cell_36 : list stmt :=
  [
    Expr (Attribute (Name "disasters") "logp") ].

Definition cell_37 : list stmt :=
  [
    Expr (Attribute (Name "early_mean") "logp") ].

Definition cell_38 : list stmt :=
  [
    Expr (Attribute (Name "late_mean") "logp") ].

Definition cell_42 : list stmt :=
  [
    ImportFrom "pymc.examples" [("disaster_model", None)];
    Assign (Name "M")
      (Call (Name "MCMC") [Name "disaster_model"] []) ].

Definition cell_43 : list stmt :=
  [
    Expr (Name "M") ].

Definition cell_44 : list stmt :=
  [
    Expr (Attribute (Name "M") "late_mean") ].

Definition cell_46 : list stmt :=
  [
    Expr (Call (Attribute (Name "M") "sample") [] [("iter", Num 10000); ("burn", Num 1000)]) ].

Definition cell_48 : list stmt :=
  [
    Expr (Slice (Call (Attribute (Name "M") "trace") [Str "early_mean"] []) (Some
      (Num 1000)) None) ].

Definition cell_50 : list stmt :=
  [
    Expr (Call (Attribute (Name "plt") "hist") [Slice (Call (Attribute (Name "M") "trace")
      [Str "late_mean"] []) None None] []) ].

Definition cell_52 : list stmt :=
  [
    Expr (Call (Attribute (Name "Matplot") "plot") [Name "M"] []) ].

Definition cell_54 : list stmt :=
  [
    Expr (Call (Attribute (Attribute (Name "M") "early_mean") "summary") [] []) ].

Definition cell_56 : list stmt :=
  [
    Assign (Name "x")
      (Call (Attribute (Name "np") "array") [ListE [Num 4; Num 5; Num 4; Num 0; Num 1; Num 4;
        Num 3; Num 4; Num 0; Num 6; Num 3; Num 3; Num 4; Num 0; Num 2; Num 6; Num 3; Num 3;
        Num 5; Num 4; Num 5; Num 3; Num 1; Num 4; Num 4; Num 1; Num 5; Num 5; Num 3; Num 4;
        Num 2; Num 5; Num 2; Num 2; Num 3; Num 4; Num 2; Num 1; Num 3; NoneConst; Num 2; Num 1;
        Num 1; Num 1; Num 1; Num 3; Num 0; Num 0; Num 1; Num 0; Num 1; Num 1; Num 0; Num 0;
        Num 3; Num 1; Num 0; Num 3; Num 2; Num 2; Num 0; Num 1; Num 1; Num 1; Num 0; Num 1;
        Num 0; Num 1; Num 0; Num 0; Num 0; Num 2; Num 1; Num 0; Num 0; Num 0; Num 1; Num 1;
        Num 0; Num 2; Num 3; Num 3; Num 1; NoneConst; Num 2; Num 1; Num 1; Num 1; Num 1; Num 2;
        Num 4; Num 2; Num 0; Num 0; Num 1; Num 4; Num 0; Num 0; Num 0; Num 1; Num 0; Num 0;
        Num 0; Num 0; Num 0; Num 1; Num 0; Num 0; Num 1; Num 0; Num 1]] []) ].

Definition cell_58 : list stmt :=
  [
    Assign (Name "masked_values")
      (Call (Attribute (Attribute (Name "np") "ma") "masked_values") [Name "x"]
        [("value", NoneConst)]);
    Expr (Name "masked_values") ].

Definition cell_60 : list stmt :=
  [
    Assign (Name "disasters")
      (Call (Name "Poisson") [Str "disasters"] [("mu", Name "rate");
        ("value", Name "masked_values"); ("observed", TrueConst)]) ].

Definition cell_62 : list stmt :=
  [
    FunctionDef "missing_data_model" []
      []
      [
        Assign (Name "switch")
          (Call (Name "DiscreteUniform") [Str "switch"] [("lower", Num 0); ("upper", Num 110)]);
        Assign (Name "early_mean")
          (Call (Name "Exponential") [Str "early_mean"] [("beta", Num 1)]);
        Assign (Name "late_mean")
          (Call (Name "Exponential") [Str "late_mean"] [("beta", Num 1)]);
        FunctionDef "rate" [Call (Name "deterministic") [] [("plot", FalseConst)]]
          [("s", Some (Name "switch")); ("e", Some (Name "early_mean"));
            ("l", Some (Name "late_mean"))]
          [
            Expr (Str "Allocate appropriate mean to time series");
            Assign (Name "out")
              (Call (Attribute (Name "np") "empty") [Call (Name "len")
                [Name "disasters_array"] []] []);
            Assign (Slice (Name "out") None (Some (Name "s")))
              (Name "e");
            Assign (Slice (Name "out") (Some (Name "s")) None)
              (Name "l");
            Return (Some (Name "out")) ];
        Assign (Name "masked_values")
          (Call (Attribute (Attribute (Name "np") "ma") "masked_values") [Name "x"]
            [("value", NoneConst)]);
        Assign (Name "disasters")
          (Call (Name "Poisson") [Str "disasters"] [("mu", Name "rate");
            ("value", Name "masked_values"); ("observed", TrueConst)]);
        Return (Some (Call (Name "locals") [] [])) ] ].

Definition cell_64 : list stmt :=
  [
    Assign (Name "M_missing")
      (Call (Name "MCMC") [Call (Name "missing_data_model") [] []] []);
    Expr (Call (Attribute (Name "M_missing") "sample") [Num 5000] []) ].

Definition cell_65 : list stmt :=
  [
    Expr (Attribute (Name "M_missing") "stochastics") ].

Definition cell_66 : list stmt :=
  [
    Expr (Call (Attribute (Name "Matplot") "summary_plot") [Attribute
      (Name "M_missing") "disasters"] []) ].

Definition cell_68 : list stmt :=
  [
    Expr (Attribute (Name "M") "step_method_dict") ].

Definition cell_70 : list stmt :=
  [
    ImportFrom "pymc" [("Metropolis", None)];
    Expr (Call (Attribute (Name "M") "use_step_method") [Name "Metropolis";
      Attribute (Name "disaster_model") "late_mean"] [("proposal_sd", FloatLit "2.")]) ].


(** The code cells in order, with their positions. *)
Definition cells : list (nat * list stmt) :=
  [ (1, cell_1); (3, cell_3); (4, cell_4); (6, cell_6); (8, cell_8);
    (10, cell_10); (12, cell_12); (14, cell_14); (15, cell_15);
    (18, cell_18); (20, cell_20); (21, cell_21); (23, cell_23);
    (27, cell_27); (29, cell_29); (30, cell_30); (31, cell_31);
    (33, cell_33); (35, cell_35); (36, cell_36); (37, cell_37);
    (38, cell_38); (42, cell_42); (43, cell_43); (44, cell_44);
    (46, cell_46); (48, cell_48); (50, cell_50); (52, cell_52);
    (54, cell_54); (56, cell_56); (58, cell_58); (60, cell_60);
    (62, cell_62); (64, cell_64); (65, cell_65); (66, cell_66);
    (68, cell_68); (70, cell_70) ]%nat.

(** The top-level statements of the notebook, in execution order. *)
Definition notebook : list stmt := flat_map snd cells.

(** The statements of the cells at positions [lo .. hi]. *)
Definition cells_between (lo hi : nat) : list stmt :=
  flat_map snd
    (filter (fun c => (lo <=? fst c)%nat && (fst c <=? hi)%nat) cells).

End Notebook.

(* ================================================================== *)
(** * What the statements of the notebook do *)
(* ================================================================== *)

Module Analysis.

Import Ast Notebook.
Local Open Scope string_scope.
Local Open Scope list_scope.

Definition mem (x : string) (l : list string) : bool :=
  existsb (String.eqb x) l.

Definition is_some {A : Type} (o : option A) : bool :=
  match o with Some _ => true | None => false end.

(** ** Calls and their arguments *)

Definition is_call (e : expr) : bool :=
  match e with Call _ _ _ => true | _ => false end.

(** Every call written in a list of statements, at any depth. *)
Definition calls (ss : list stmt) : list expr :=
  filter is_call (exprs_of ss).

Definition keyword (p : string) (kws : list (string * expr)) : option expr :=
  option_map snd (find (fun kv => String.eqb (fst kv) p) kws).

Fixpoint position (p : string) (sig : list string) : option nat :=
  match sig with
  | [] => None
  | q :: sig' =>
      if String.eqb p q then Some O else option_map S (position p sig')
  end.

(** The argument a call gives for parameter [p] of a callee whose leading
    parameters are [sig]: by position, else by keyword. *)
Definition argument (sig : list string) (p : string) (call : expr)
  : option expr :=
  match call with
  | Call _ args kws =>
      match position p sig with
      | Some k =>
          match nth_error args k with
          | Some a => Some a
          | None => keyword p kws
          end
      | None => keyword p kws
      end
  | _ => None
  end.

(** ** Fitting calls *)

(** The leading parameters of PyMC's [MCMC.sample(iter, burn=0, thin=1, ...)]. *)
Definition sample_signature : list string := ["iter"; "burn"; "thin"].

Definition is_sample_call (e : expr) : bool :=
  match e with
  | Call (Attribute _ m) _ _ => String.eqb m "sample"
  | _ => false
  end.

Definition sample_calls : list expr :=
  filter is_sample_call (exprs_of notebook).

Definition supplies (p : string) (call : expr) : bool :=
  is_some (argument sample_signature p call).

Definition passes_iter_burn_thin (call : expr) : bool :=
  supplies "iter" call && supplies "burn" call && supplies "thin" call.

(** ** Storage *)

(** The leading parameters of PyMC's [MCMC(input=None, db='ram', ...)]. *)
Definition mcmc_signature : list string := ["input"; "db"].

Definition is_mcmc_call (e : expr) : bool :=
  match e with
  | Call (Name f) _ _ => String.eqb f "MCMC"
  | _ => false
  end.

(** The trace backends that write to disk, as the notebook's introduction
    lists them: plain text, Python pickles, SQLite or MySQL database, hdf5
    archives. *)
Definition disk_backends : list string :=
  ["txt"; "pickle"; "sqlite"; "mysql"; "hdf5"].

(** The database argument of a call: the [db] parameter of [MCMC], or a
    [db] keyword given to any other call. *)
Definition db_argument (e : expr) : option expr :=
  if is_mcmc_call e then argument mcmc_signature "db" e
  else argument [] "db" e.

(** A call asks for durable storage when its database argument names a disk
    backend (an argument that is not a string literal counts too). *)
Definition requests_storage (e : expr) : bool :=
  match db_argument e with
  | Some (Str b) => mem b disk_backends
  | Some _ => true
  | None => false
  end.

(** ** Names bound and objects assigned to *)

(** The variable a statement binds: an assignment to a name, or a [def]. *)
Definition binds (s : stmt) : list string :=
  match s with
  | Assign (Name x) _ => [x]
  | FunctionDef n _ _ _ => [n]
  | _ => []
  end.

(** The variables bound by the statements of one scope, in order, with
    repetitions. *)
Definition variables (ss : list stmt) : list string := flat_map binds ss.

(** The variables bound by more than one statement of the scope. *)
Definition rebound (ss : list stmt) : list string :=
  nodup string_dec
    (filter (fun x => (1 <? count_occ string_dec (variables ss) x)%nat)
       (variables ss)).

(** A statement that changes an object that already exists: an assignment
    to an attribute, an item or a slice, or a [del]. *)
Definition mutates (s : stmt) : bool :=
  match s with
  | Assign (Name _) _ => false
  | Assign _ _ => true
  | Delete _ => true
  | _ => false
  end.

(** The body of every [def] of the notebook, at any depth. *)
Definition function_bodies (ss : list stmt) : list (string * list stmt) :=
  flat_map (fun s => match s with
                     | FunctionDef n _ _ b => [(n, b)]
                     | _ => []
                     end) (stmts_of ss).

(** Every variable is bound once in its scope and no statement changes an
    existing object. *)
Definition bound_once_and_never_changed (ss : list stmt) : bool :=
  match rebound ss with [] => true | _ => false end
  && forallb (fun f => match rebound (snd f) with [] => true | _ => false end)
       (function_bodies ss)
  && forallb (fun s => negb (mutates s)) (stmts_of ss).

(** ** Functions and expressions of the notebook's own *)

(** The functions that stay the notebook's own after their definition: a
    [def] without decorator (a decorated one is replaced by the object the
    decorator returns). *)
Definition own_functions (ss : list stmt) : list (string * list stmt) :=
  flat_map (fun s => match s with
                     | FunctionDef n [] _ b => [(n, b)]
                     | _ => []
                     end) ss.

(** An expression node that is not a call into a library: an operator
    applied by the notebook, a [lambda], or a call of one of the notebook's
    own functions. *)
Definition own_computation (own : list string) (e : expr) : bool :=
  match e with
  | BinOp _ _ _ | Compare _ _ _ | Lambda _ _ => true
  | Call (Name f) _ _ => mem f own
  | _ => false
  end.

Definition direct (own : list string) (e : expr) : bool :=
  forallb (fun x => negb (own_computation own x)) (subexprs e).

Definition is_import (s : stmt) : bool :=
  match s with Import _ _ | ImportFrom _ _ => true | _ => false end.

Definition is_magic (s : stmt) : bool :=
  match s with Magic _ => true | _ => false end.

(** The expression a simple statement evaluates: the value assigned to a
    name, or an expression statement. *)
Definition evaluated (s : stmt) : option expr :=
  match s with
  | Assign (Name _) v => Some v
  | Expr v => Some v
  | _ => None
  end.

(** A direct call into a library, possibly bound to a name: the expression
    is a call, with nothing of the notebook's own inside. *)
Definition library_call (own : list string) (s : stmt) : bool :=
  match evaluated s with
  | Some v => is_call v && direct own v
  | None => false
  end.

(** A mere read: the expression is a name, an attribute or a slice, with
    nothing of the notebook's own inside. *)
Definition is_read (e : expr) : bool :=
  match e with
  | Name _ | Attribute _ _ | Slice _ _ _ => true
  | _ => false
  end.

Definition library_read (own : list string) (s : stmt) : bool :=
  match evaluated s with
  | Some v => is_read v && direct own v
  | None => false
  end.

(** A statement that is an import or a direct call into a library. *)
Definition call_through (own : list string) (s : stmt) : bool :=
  is_import s || library_call own s.

(** A statement with no code of the notebook's own: an import, a direct
    call into a library, the magic, or a mere read. *)
Definition library_step (own : list string) (s : stmt) : bool :=
  call_through own s || is_magic s || library_read own s.

Definition is_lambda (e : expr) : bool :=
  match e with Lambda _ _ => true | _ => false end.

Definition is_def (s : stmt) : bool :=
  match s with FunctionDef _ _ _ _ => true | _ => false end.

(** The number of functions the notebook defines: [def]s and [lambda]s. *)
Definition functions_defined (ss : list stmt) : nat :=
  length (filter is_def (stmts_of ss))
  + length (filter is_lambda (exprs_of ss)).

Definition control_flow (s : stmt) : bool :=
  match s with
  | If _ _ _ | For _ _ _ | While _ _ | Try _ _ _ | With _ _ => true
  | _ => false
  end.

(** Every step is without code of the notebook's own and no function is
    defined. *)
Definition only_library_calls (ss : list stmt) : bool :=
  forallb (library_step (map fst (own_functions ss))) ss
  && (functions_defined ss =? 0)%nat.

(** The name a top-level statement binds, to refer to it. *)
Definition label (s : stmt) : string :=
  match binds s with x :: _ => x | [] => "-" end.

(** ** Checks and error handling *)

(** A statement that checks a condition or signals its failure. *)
Definition enforces (s : stmt) : bool :=
  match s with
  | Assert _ | Raise _ | If _ _ _ => true
  | _ => false
  end.

(** A statement that catches, transforms or raises an error, or repeats
    its body. *)
Definition handles_errors (s : stmt) : bool :=
  match s with
  | Try _ _ _ | With _ _ | Raise _ | Assert _ | For _ _ _ | While _ _ => true
  | _ => false
  end.

(** ** The steps of an example *)

Inductive phase : Type := Loading | Declaring | Fitting | Reporting.

Definition rank (p : phase) : nat :=
  match p with Loading => 0 | Declaring => 1 | Fitting => 2 | Reporting => 3 end.

Definition phase_eqb (p q : phase) : bool := (rank p =? rank q)%nat.

Inductive kind : Type := Unknown | Observed | Computed.

Definition kind_eqb (a b : kind) : bool :=
  match a, b with
  | Unknown, Unknown | Observed, Observed | Computed, Computed => true
  | _, _ => false
  end.

(** The distribution classes the notebook imports from PyMC. *)
Definition stochastic_classes : list string :=
  ["Normal"; "Uniform"; "DiscreteUniform"; "Exponential"; "Poisson"].

Definition decorator_kind (c : string) : option kind :=
  if String.eqb c "deterministic" then Some Computed
  else if String.eqb c "observed" then Some Observed
  else if String.eqb c "stochastic" then Some Unknown
  else None.

(** The model variable a statement declares, and its kind: a distribution
    object ([observed=True] makes it observed), a [Lambda], or a function
    under one of PyMC's decorators. *)
Definition declaration (s : stmt) : option (string * kind) :=
  match s with
  | Assign (Name x) (Call (Name c) _ kws) =>
      if String.eqb c "Lambda" then Some (x, Computed)
      else if mem c stochastic_classes then
        match keyword "observed" kws with
        | Some TrueConst => Some (x, Observed)
        | _ => Some (x, Unknown)
        end
      else None
  | FunctionDef n [Name c] _ _ =>
      option_map (pair n) (decorator_kind c)
  | FunctionDef n [Call (Name c) _ _] _ _ =>
      option_map (pair n) (decorator_kind c)
  | _ => None
  end.

(** Example data: an import from [pymc.examples], or an array literal. *)
Definition loads (s : stmt) : bool :=
  match s with
  | ImportFrom m _ => String.prefix "pymc.examples" m
  | Assign (Name _) (Call (Attribute (Name np) f) _ _) =>
      String.eqb np "np" && String.eqb f "array"
  | _ => false
  end.

Definition exprs_in (s : stmt) : list expr := flat_map subexprs (own_exprs s).

(** The fitting routine: the construction of the sampler and its [sample]. *)
Definition fits (s : stmt) : bool :=
  existsb (fun e => is_mcmc_call e || is_sample_call e) (exprs_in s).

(** A plot or summary of results: a function of PyMC's [Matplot], or the
    [trace], [summary] or [stats] method of a fitted object. *)
Definition is_report_call (e : expr) : bool :=
  match e with
  | Call (Attribute (Name m) f) _ _ =>
      String.eqb m "Matplot" || mem f ["trace"; "summary"; "stats"]
  | Call (Attribute _ f) _ _ => mem f ["trace"; "summary"; "stats"]
  | _ => false
  end.

Definition reports (s : stmt) : bool := existsb is_report_call (exprs_in s).

(** The operations the notebook asks of the libraries: sampling, plots and
    summaries of results, plots with [matplotlib.pyplot], and the masked
    array for the missing values. *)
Definition is_library_operation (e : expr) : bool :=
  is_sample_call e || is_report_call e
  || match e with
     | Call (Attribute (Name m) _) _ _ => String.eqb m "plt"
     | _ => false
     end
  || match e with
     | Call (Attribute _ f) _ _ => String.eqb f "masked_values"
     | _ => false
     end.

(** The class an assignment constructs its variable with. *)
Definition constructed_with (s : stmt) : list (string * string) :=
  match s with
  | Assign (Name x) (Call (Name c) _ _) => [(x, c)]
  | _ => []
  end.

(** The phase of one statement, if it belongs to one. *)
Definition step (s : stmt) : list phase :=
  if loads s then [Loading]
  else if is_some (declaration s) then [Declaring]
  else if fits s then [Fitting]
  else if reports s then [Reporting]
  else [].

Definition lookup (f : string) (fns : list (string * list stmt))
  : option (list stmt) :=
  option_map snd (find (fun p => String.eqb (fst p) f) fns).

(** The bodies of the notebook's own functions that a statement calls. *)
Definition called_bodies (fns : list (string * list stmt)) (s : stmt)
  : list stmt :=
  flat_map (fun e => match e with
                     | Call (Name f) _ _ =>
                         match lookup f fns with Some b => b | None => [] end
                     | _ => []
                     end) (exprs_in s).

(** The phases of a list of statements in execution order: a statement that
    calls one of the notebook's own functions runs its body first. *)
Definition steps (fns : list (string * list stmt)) (ss : list stmt)
  : list phase :=
  flat_map (fun s => flat_map step (called_bodies fns s) ++ step s) ss.

(** The model variables declared while the statements run. *)
Definition declared (fns : list (string * list stmt)) (ss : list stmt)
  : list (string * kind) :=
  flat_map (fun s => flat_map (fun b => of_option (declaration b))
                       (called_bodies fns s)
                     ++ of_option (declaration s)) ss.

Definition returns_locals (body : list stmt) : bool :=
  match last body (Return None) with
  | Return (Some (Call (Name f) [] [])) => String.eqb f "locals"
  | _ => false
  end.

(** The names of the variables an [MCMC] call receives: the names in a list
    literal, or the local variables of an own function that returns
    [locals()]; any other argument (such as an imported module) hands over
    nothing that the notebook declared. *)
Definition handed (fns : list (string * list stmt)) (call : expr)
  : list string :=
  match argument mcmc_signature "input" call with
  | Some (ListE es) =>
      flat_map (fun e => match e with Name x => [x] | _ => [] end) es
  | Some (Call (Name f) [] []) =>
      match lookup f fns with
      | Some b => if returns_locals b then variables b else []
      | None => []
      end
  | _ => []
  end.

(** Where a variable lives: at top level, or in the body of one of the
    notebook's own functions. *)
Inductive scope : Type :=
| TopLevel
| Inside (f : string).

Definition variable_eqb (a b : scope * string) : bool :=
  String.eqb (snd a) (snd b)
  && match fst a, fst b with
     | TopLevel, TopLevel => true
     | Inside f, Inside g => String.eqb f g
     | _, _ => false
     end.

(** The own functions a statement calls, by name. *)
Definition called_functions (s : stmt) : list string :=
  flat_map (fun e => match e with
                     | Call (Name f) _ _ => [f]
                     | _ => []
                     end) (exprs_in s).

(** The variables an [MCMC] call written at top level receives: the
    top-level variables named in a list literal, or the local variables of
    an own function that returns [locals()]. *)
Definition handed_in (fns : list (string * list stmt)) (call : expr)
  : list (scope * string) :=
  match argument mcmc_signature "input" call with
  | Some (ListE es) =>
      flat_map (fun e => match e with Name x => [(TopLevel, x)] | _ => [] end)
        es
  | Some (Call (Name f) [] []) =>
      match lookup f fns with
      | Some b =>
          if returns_locals b then map (pair (Inside f)) (variables b) else []
      | None => []
      end
  | _ => []
  end.

Fixpoint sorted (l : list nat) : bool :=
  match l with
  | a :: (b :: _) as l' => (a <=? b)%nat && sorted l'
  | _ => true
  end.

Definition count_kind (k : kind) (ds : list (string * kind)) : nat :=
  length (filter (fun d => kind_eqb (snd d) k) ds).

(** The three examples of the notebook, by the positions of their cells:
    survival (1-4), coal mining disasters (6-54, under the heading
    "Example: Coal mining disasters"), missing data (56-66, under the
    heading "Imputation of Missing Data"). *)
Definition survival_example : list stmt := cells_between 1 4.
Definition coal_mining_example : list stmt := cells_between 6 54.
Definition missing_data_example : list stmt := cells_between 56 66.

Definition examples : list (list stmt) :=
  [survival_example; coal_mining_example; missing_data_example].

Definition fns : list (string * list stmt) := own_functions notebook.

(** Loading, declaring, fitting, reporting, in this order. *)
Definition in_order (ex : list stmt) : bool :=
  sorted (map rank (steps fns ex))
  && forallb (fun p => existsb (phase_eqb p) (steps fns ex))
       [Loading; Declaring; Fitting; Reporting].

(** Some variables observed, some unknown, exactly one computed. *)
Definition kinds_as_described (ex : list stmt) : bool :=
  (1 <=? count_kind Observed (declared fns ex))%nat
  && (1 <=? count_kind Unknown (declared fns ex))%nat
  && (count_kind Computed (declared fns ex) =? 1)%nat.

(** The variables, with their scopes, declared while the example runs. *)
Definition declared_in (ex : list stmt) : list (scope * string) :=
  flat_map
    (fun s =>
       flat_map (fun f =>
                   match lookup f fns with
                   | Some b =>
                       map (fun d => (Inside f, fst d))
                         (flat_map (fun s' => of_option (declaration s')) b)
                   | None => []
                   end) (called_functions s)
         ++ map (fun d => (TopLevel, fst d)) (of_option (declaration s)))
    ex.

(** The declared variables that no [MCMC] call of the example receives. *)
Definition not_handed (ex : list stmt) : list (scope * string) :=
  filter (fun d => negb (existsb (variable_eqb d)
                           (flat_map (handed_in fns)
                              (filter is_mcmc_call (exprs_of ex)))))
    (declared_in ex).

(** Every declared variable is among those the [MCMC] calls of the example
    receive: the very variable, not another one of the same name. *)
Definition hands_over_declared (ex : list stmt) : bool :=
  match not_handed ex with [] => true | _ => false end.

Definition follows_flow (ex : list stmt) : bool :=
  in_order ex && kinds_as_described ex && hands_over_declared ex.

End Analysis.

(* ================================================================== *)
(** * Errors raised while a cell runs *)
(* ================================================================== *)

Module Errors.

Import Ast Notebook.

(** An error comes from a library operation, or from a [raise] written in
    the notebook. *)
Inductive exn : Type :=
| FromLibrary (name : string)
| FromNotebook.

Inductive outcome : Type :=
| Normal
| Returned
| Raised (e : exn).

(** The outcome and the number of library operations performed so far;
    [None] for a construct this evaluation does not cover. *)
Definition result : Type := option (outcome * nat).

Definition and_then (r : result) (f : nat -> result) : result :=
  match r with
  | Some (Normal, k) => f k
  | Some (o, k) => Some (o, k)
  | None => None
  end.

Section Run.

(** [raises k] is the error with which the [k]-th library operation of the
    run fails, if it fails. *)
Variable raises : nat -> option string.

(** One library operation: an import, an attribute access, an operator, a
    subscript or a call on a library object. *)
Definition operation (k : nat) : result :=
  match raises k with
  | Some e => Some (Raised (FromLibrary e), S k)
  | None => Some (Normal, S k)
  end.

Section Evaluation.

(** The notebook's own functions that can be called by name. *)
Variable call_own : string -> option (nat -> result).

(** Evaluation of an expression: operands left to right, then the
    operation itself.  A [lambda] evaluates its defaults only. *)
Fixpoint eval (e : expr) (k : nat) : result :=
  match e with
  | Name _ | Num _ | FloatLit _ | Str _
  | NoneConst | TrueConst | FalseConst => Some (Normal, k)
  | Attribute v _ => and_then (eval v k) operation
  | Call f args kws =>
      and_then
        (fold_left (fun r kv => and_then r (eval (snd kv))) kws
           (fold_left (fun r a => and_then r (eval a)) args (eval f k)))
        (match f with
         | Name n =>
             match call_own n with
             | Some body => body
             | None => operation
             end
         | _ => operation
         end)
  | BinOp l _ r => and_then (and_then (eval l k) (eval r)) operation
  | Compare l _ r => and_then (and_then (eval l k) (eval r)) operation
  | Slice v lo hi =>
      and_then
        (and_then
           (and_then (eval v k)
              (match lo with Some a => eval a | None => fun j => Some (Normal, j) end))
           (match hi with Some a => eval a | None => fun j => Some (Normal, j) end))
        operation
  | ListE es => fold_left (fun r a => and_then r (eval a)) es (Some (Normal, k))
  | TupleE es => fold_left (fun r a => and_then r (eval a)) es (Some (Normal, k))
  | Lambda ps _ =>
      fold_left (fun r p => match snd p with
                            | Some d => and_then r (eval d)
                            | None => r
                            end) ps (Some (Normal, k))
  end.

Definition eval_all (es : list expr) (k : nat) : result :=
  fold_left (fun r a => and_then r (eval a)) es (Some (Normal, k)).

(** Execution of a statement.  A [def] evaluates its decorators and
    defaults and applies each decorator; an assignment evaluates the value,
    then the target; [try] runs its handler when the body raised, and then
    carries on; branches, loops, [with], [assert] and [del] are not
    covered. *)
Fixpoint exec (s : stmt) (k : nat) : result :=
  match s with
  | Magic _ | Import _ _ | ImportFrom _ _ => operation k
  | Assign (Name _) v => eval v k
  | Assign t v => and_then (eval v k) (eval t)
  | Expr v => eval v k
  | FunctionDef _ ds ps _ =>
      fold_left (fun r _ => and_then r operation) ds
        (and_then (eval_all ds k) (eval_all (defaults ps)))
  | Return v =>
      match (match v with Some e => eval e k | None => Some (Normal, k) end) with
      | Some (Normal, k') => Some (Returned, k')
      | Some (o, k') => Some (o, k')
      | None => None
      end
  | Try b h f =>
      let seq := fold_left (fun r s' => and_then r (exec s')) in
      match seq b (Some (Normal, k)) with
      | Some (Raised _, k') => seq f (seq h (Some (Normal, k')))
      | Some (o, k') =>
          match seq f (Some (Normal, k')) with
          | Some (Normal, k'') => Some (o, k'')
          | Some (o', k'') => Some (o', k'')
          | None => None
          end
      | None => None
      end
  | Raise v =>
      match (match v with Some e => eval e k | None => Some (Normal, k) end) with
      | Some (Normal, k') => Some (Raised FromNotebook, k')
      | Some (o, k') => Some (o, k')
      | None => None
      end
  | If _ _ _ | For _ _ _ | While _ _ | With _ _ | Assert _ | Delete _ => None
  end.

Definition exec_all (ss : list stmt) (k : nat) : result :=
  fold_left (fun r s => and_then r (exec s)) ss (Some (Normal, k)).

End Evaluation.

(** A call of an own function runs its body; what it returns is a value. *)
Definition returns (r : result) : result :=
  match r with
  | Some (Returned, k) => Some (Normal, k)
  | Some (o, k) => Some (o, k)
  | None => None
  end.

(** Running statements, own functions nested at most [depth] deep. *)
Fixpoint run (depth : nat) (ss : list stmt) (k : nat) : result :=
  match depth with
  | O => None
  | S d =>
      exec_all
        (fun n => option_map (fun b j => returns (run d b j))
                    (Analysis.lookup n Analysis.fns))
        ss k
  end.

(** No library operation from the [k]-th to before the [k']-th failed. *)
Definition quiet (k k' : nat) : Prop :=
  forall j, (k <= j < k')%nat -> raises j = None.

(** A run started at operation [k]: if it has an outcome, it ended
    normally with no failed operation, or it ended with the error of the
    first operation that failed, right after it. *)
Definition sound (k : nat) (r : result) : Prop :=
  match r with
  | Some (Raised (FromLibrary e), k') =>
      exists j, k' = S j /\ (k <= j)%nat /\ raises j = Some e /\ quiet k j
  | Some (Raised FromNotebook, _) => False
  | Some (_, k') => (k <= k')%nat /\ quiet k k'
  | None => True
  end.

(** No library operation before the [k]-th failed. *)
Definition clean (k : nat) : Prop := forall j, (j < k)%nat -> raises j = None.

(** The run ended normally and no library operation failed, or it ended
    with the error of the first library operation that failed, right after
    that operation. *)
Definition first_error_propagates (r : result) : Prop :=
  match r with
  | Some (Raised (FromLibrary e), k') =>
      exists k, k' = S k /\ raises k = Some e /\ clean k
  | Some (Raised FromNotebook, _) => False
  | Some (_, k') => clean k'
  | None => False
  end.

End Run.

(** Running one cell. *)
Definition run_cell (raises : nat -> option string) (c : nat * list stmt)
  : result :=
  run raises 2 (snd c) 0.

End Errors.

(* ================================================================== *)
(** * Names: what the statements read and bind *)
(* ================================================================== *)

Module Scopes.

Import Ast Notebook.
Local Open Scope string_scope.
Local Open Scope list_scope.

(** The built-in functions the notebook calls. *)
Definition builtins : list string := ["int"; "len"; "sum"; "locals"].

(** The names an expression reads where it is written.  Attribute and
    keyword names are not variables; a [lambda] reads its defaults, and the
    names of its body that are not its parameters. *)
Fixpoint reads (e : expr) : list string :=
  match e with
  | Name x => [x]
  | Num _ | FloatLit _ | Str _ | NoneConst | TrueConst | FalseConst => []
  | Attribute v _ => reads v
  | Call f args kws =>
      reads f ++ flat_map reads args ++ flat_map (fun kv => reads (snd kv)) kws
  | BinOp l _ r => reads l ++ reads r
  | Compare l _ r => reads l ++ reads r
  | Slice v lo hi =>
      reads v
        ++ match lo with Some a => reads a | None => [] end
        ++ match hi with Some a => reads a | None => [] end
  | ListE es => flat_map reads es
  | TupleE es => flat_map reads es
  | Lambda ps b =>
      flat_map (fun p => match snd p with Some d => reads d | None => [] end) ps
        ++ filter (fun x => negb (Analysis.mem x (map fst ps))) (reads b)
  end.

(** The names a statement binds in its scope.  ([import m] without [as]
    binds [m]; the notebook has no dotted import without [as].) *)
Definition bound_by (s : stmt) : list string :=
  match s with
  | Import m None => [m]
  | Import _ (Some a) => [a]
  | ImportFrom _ names =>
      map (fun p => match snd p with Some a => a | None => fst p end) names
  | Assign (Name x) _ => [x]
  | FunctionDef n _ _ _ => [n]
  | _ => []
  end.

Definition known (env : list string) (e : expr) : bool :=
  forallb (fun x => Analysis.mem x env) (reads e).

(** [scoped s env] is the environment after [s] when every name [s] reads
    is in [env], the names bound so far.  The body of a [def] is checked
    where it is defined, against its parameters and the names bound before
    the [def]; the names the body assigns are local to it, so they are not
    taken from outside.  Statements the notebook does not use are not
    covered. *)
Fixpoint scoped (s : stmt) (env : list string) : option (list string) :=
  match s with
  | Magic _ => Some env
  | Import _ _ | ImportFrom _ _ => Some (bound_by s ++ env)
  | Assign (Name x) v => if known env v then Some (x :: env) else None
  | Assign t v => if known env v && known env t then Some env else None
  | Expr v => if known env v then Some env else None
  | Return None => Some env
  | Return (Some v) => if known env v then Some env else None
  | FunctionDef n ds ps body =>
      if forallb (known env) (ds ++ defaults ps) then
        let inner :=
          map fst ps
            ++ filter (fun x => negb (Analysis.mem x (flat_map bound_by body)))
                 (n :: env) in
        match
          (fix go (ss : list stmt) (env' : list string) : option (list string) :=
             match ss with
             | [] => Some env'
             | s' :: ss' =>
                 match scoped s' env' with
                 | Some env'' => go ss' env''
                 | None => None
                 end
             end) body inner
        with
        | Some _ => Some (n :: env)
        | None => None
        end
      else None
  | _ => None
  end.

Fixpoint scoped_all (ss : list stmt) (env : list string)
  : option (list string) :=
  match ss with
  | [] => Some env
  | s :: ss' =>
      match scoped s env with
      | Some env' => scoped_all ss' env'
      | None => None
      end
  end.

(** Run from the top, no statement reads a name that is not bound yet. *)
Definition bound_before_use (ss : list stmt) : bool :=
  Analysis.is_some (scoped_all ss builtins).

(** ** The names of the model variables *)

(** The Python name and the PyMC name (the first argument) of a variable
    constructed with a class of the library. *)
Definition node_name (s : stmt) : list (string * string) :=
  match s with
  | Assign (Name x) (Call (Name c) (Str nm :: _) _) =>
      if Analysis.mem c ("Lambda" :: Analysis.stochastic_classes)
      then [(x, nm)] else []
  | _ => []
  end.

(** ** The switch-point and the series *)

Definition int_of (e : option expr) : option Z :=
  match e with Some (Num n) => Some n | _ => None end.

(** The bounds [lower], [upper] and the initial [value], if given, of a
    [DiscreteUniform] variable. *)
Definition support (s : stmt) : list (Z * Z * option Z) :=
  match s with
  | Assign (Name _) (Call (Name c) _ kws) =>
      if String.eqb c "DiscreteUniform" then
        match int_of (Analysis.keyword "lower" kws),
              int_of (Analysis.keyword "upper" kws) with
        | Some lo, Some hi =>
            [(lo, hi, int_of (Analysis.keyword "value" kws))]
        | _, _ => []
        end
      else []
  | _ => []
  end.

Definition switchpoint_supports : list (Z * Z * option Z) :=
  flat_map support (stmts_of notebook).

(** The elements of the list literal [x = np.array([...])]: the series
    with its missing values. *)
Definition series : list expr :=
  flat_map (fun s => match s with
                     | Assign (Name v) (Call _ [ListE es] _) =>
                         if String.eqb v "x" then es else []
                     | _ => []
                     end) notebook.

End Scopes.

(* ================================================================== *)
(** * Lemmas on the array operations *)
(* ================================================================== *)

Section ArrayFacts.

Local Open Scope R_scope.

Lemma length_fill (a : list R) (i start stop : nat) (v : R) :
  length (Numpy.fill i a start stop v) = length a.
Proof.
  revert i; induction a as [|x a IH]; intro i; simpl; [|rewrite IH]; reflexivity.
Qed.

Lemma nth_fill (a : list R) (i j start stop : nat) (v d : R) :
  nth j (Numpy.fill i a start stop v) d =
  if ((j <? length a) && (start <=? i + j) && (i + j <? stop))%nat
  then v else nth j a d.
Proof.
  revert i j; induction a as [|x a IH]; intros i j.
  - destruct j; reflexivity.
  - destruct j as [|j]; simpl Numpy.fill; cbn [nth length].
    + rewrite Nat.add_0_r. reflexivity.
    + rewrite IH. replace (S i + j)%nat with (i + S j)%nat by lia.
      reflexivity.
Qed.

Lemma length_empty (u : nat -> R) (n : nat) : length (Numpy.empty u n) = n.
Proof. unfold Numpy.empty. rewrite length_map, length_seq. reflexivity. Qed.

Lemma clamp_in_range (n : nat) (k : Z) :
  (0 <= k <= Z.of_nat n)%Z -> Numpy.clamp n k = Z.to_nat k.
Proof.
  intros [H0 Hn]. unfold Numpy.clamp.
  destruct (Z.ltb_spec k 0); [lia|]. f_equal. lia.
Qed.

Lemma length_zip_with (op : R -> R -> R) (a b : list R) :
  length a = length b -> length (Numpy.zip_with op a b) = length a.
Proof.
  intro H. unfold Numpy.zip_with. rewrite length_map, length_combine, <- H.
  apply Nat.min_id.
Qed.

Lemma nth_zip_with (op : R -> R -> R) (a b : list R) (i : nat) (d : R) :
  length a = length b -> (i < length a)%nat ->
  nth i (Numpy.zip_with op a b) d = op (nth i a 0) (nth i b 0).
Proof.
  intros Hlen Hi. unfold Numpy.zip_with.
  rewrite (nth_indep _ d (op (fst (0, 0)) (snd (0, 0)))).
  - rewrite (map_nth (fun p => op (fst p) (snd p))).
    rewrite combine_nth by exact Hlen. reflexivity.
  - rewrite length_map, length_combine, <- Hlen, Nat.min_id. exact Hi.
Qed.

Lemma broadcast_same_length (op : R -> R -> R) (a b : list R) :
  length a = length b ->
  Numpy.broadcast op a b = Some (Numpy.zip_with op a b).
Proof.
  intro H. unfold Numpy.broadcast. rewrite H, Nat.eqb_refl. reflexivity.
Qed.

Lemma sum_below_ext (n : nat) (g h : nat -> R) :
  (forall i, (i < n)%nat -> g i = h i) ->
  Model.sum_below n g = Model.sum_below n h.
Proof.
  induction n as [|n IH]; intro H; simpl; [reflexivity|].
  rewrite IH, (H n) by (intros; auto with arith). reflexivity.
Qed.

Lemma sum_below_shift (n : nat) (g : nat -> R) :
  Model.sum_below (S n) g = g O + Model.sum_below n (fun i => g (S i)).
Proof.
  induction n as [|n IH].
  - simpl. ring.
  - change (Model.sum_below (S (S n)) g)
      with (Model.sum_below (S n) g + g (S n)).
    rewrite IH. simpl. ring.
Qed.

(** The built-in [sum], folding from the left, adds up the elements by index. *)
Lemma fold_left_sum_below (l : list R) (acc : R) :
  fold_left Rplus l acc
  = acc + Model.sum_below (length l) (fun i => nth i l 0).
Proof.
  revert acc; induction l as [|x l IH]; intro acc.
  - simpl. ring.
  - cbn [fold_left length]. rewrite IH, sum_below_shift. cbn [nth]. ring.
Qed.

Lemma all_nth_repeat (a : list R) (v : R) :
  (forall i, (i < length a)%nat -> nth i a 0 = v) -> a = repeat v (length a).
Proof.
  intro H. apply (nth_ext _ _ 0 0).
  - rewrite repeat_length. reflexivity.
  - intros i Hi. rewrite H by exact Hi. rewrite nth_repeat_lt by exact Hi.
    reflexivity.
Qed.

End ArrayFacts.

(* ================================================================== *)
(** * The functions the notebook defines *)
(* ================================================================== *)

Section Failure.

Local Open Scope Z_scope.

Lemma nth_failure (censored : list Z) (i : nat) :
  (i < length censored)%nat ->
  nth i (Model.failure censored) 0 = if nth i censored 0 =? 0 then 1 else 0.
Proof.
  intro Hi. unfold Model.failure, Numpy.astype_int, Numpy.eq_scalar.
  rewrite map_map.
  rewrite (nth_indep _ 0 ((fun c => if c =? 0 then 1 else 0) 0)).
  - rewrite (map_nth (fun c : Z => if c =? 0 then 1 else 0)). reflexivity.
  - rewrite length_map. exact Hi.
Qed.

Lemma length_failure (censored : list Z) :
  length (Model.failure censored) = length censored.
Proof.
  unfold Model.failure, Numpy.astype_int, Numpy.eq_scalar.
  rewrite !length_map. reflexivity.
Qed.

(** C10. [failure = (data.censored==0).astype(int)] has the length of
    [censored], every element of it is 0 or 1, element [i] is 1 exactly when
    [censored[i]] is 0, and the same construction applied to [failure] is 1
    exactly where [censored] is not 0. *)
Theorem failure_complements_censored (censored : list Z) :
  length (Model.failure censored) = length censored /\
  Forall (fun v => v = 0 \/ v = 1) (Model.failure censored) /\
  (forall i, (i < length censored)%nat ->
     (nth i (Model.failure censored) 0 = 1 <-> nth i censored 0 = 0)) /\
  (forall i, (i < length censored)%nat ->
     (nth i (Model.failure (Model.failure censored)) 0 = 1
      <-> nth i censored 0 <> 0)).
Proof.
  split; [apply length_failure|]. split; [|split].
  - unfold Model.failure, Numpy.astype_int, Numpy.eq_scalar.
    rewrite map_map. apply Forall_forall. intros v Hv.
    apply in_map_iff in Hv. destruct Hv as [c [Hc _]]. subst v.
    destruct (c =? 0); [right|left]; reflexivity.
  - intros i Hi. rewrite nth_failure by exact Hi.
    destruct (Z.eqb_spec (nth i censored 0) 0) as [E|E].
    + split; auto.
    + split; [discriminate|contradiction].
  - intros i Hi. rewrite nth_failure by (rewrite length_failure; exact Hi).
    rewrite nth_failure by exact Hi.
    destruct (Z.eqb_spec (nth i censored 0) 0) as [E|E]; simpl.
    + split; [discriminate|contradiction].
    + split; auto.
Qed.

(** The same at a concrete censoring vector. *)
Lemma failure_complements_censored_witness :
  (nth 1 (Model.failure [1; 0; 1; 2]) 0 = 1 <-> nth 1 [1; 0; 1; 2] 0 = 0) /\
  (nth 3 (Model.failure (Model.failure [1; 0; 1; 2])) 0 = 1
   <-> nth 3 [1; 0; 1; 2] 0 <> 0).
Proof.
  destruct (failure_complements_censored [1; 0; 1; 2]) as [_ [_ [H1 H2]]].
  split; [apply (H1 1%nat) | apply (H2 3%nat)]; simpl; lia.
Defined.

End Failure.

Section Rate.

Local Open Scope R_scope.

Variable disasters_array : list Z.
Variable uninit : nat -> R.

Lemma length_rate (s : Z) (e l : R) :
  length (Model.rate disasters_array uninit s e l) = length disasters_array.
Proof.
  unfold Model.rate, Numpy.setitem_from, Numpy.setitem_upto.
  rewrite !length_fill. apply length_empty.
Qed.

Lemma nth_rate (s : Z) (e l d : R) (i : nat) :
  (0 <= s <= Z.of_nat (length disasters_array))%Z ->
  (i < length disasters_array)%nat ->
  nth i (Model.rate disasters_array uninit s e l) d
  = if (Z.of_nat i <? s)%Z then e else l.
Proof.
  intros Hs Hi. unfold Model.rate, Numpy.setitem_from, Numpy.setitem_upto.
  rewrite nth_fill, nth_fill. rewrite !length_fill, !length_empty.
  rewrite clamp_in_range by exact Hs.
  apply Nat.ltb_lt in Hi as Hi'. rewrite Hi'. simpl.
  destruct (Z.ltb_spec (Z.of_nat i) s) as [L|L].
  - replace (Z.to_nat s <=? i)%nat with false
      by (symmetry; apply Nat.leb_gt; lia).
    replace (i <? Z.to_nat s)%nat with true
      by (symmetry; apply Nat.ltb_lt; lia).
    reflexivity.
  - replace (Z.to_nat s <=? i)%nat with true
      by (symmetry; apply Nat.leb_le; lia).
    simpl. rewrite ?Hi'. reflexivity.
Qed.

(** C3. For a switchpoint [0 <= s <= len(disasters_array)] and any means
    [e] and [l], [rate(s, e, l)] (and the [rate] nested in
    [missing_data_model], which has the same body) is an array of length
    [len(disasters_array)] whose elements at indices [i < s] are [e] and at
    indices [i >= s] are [l]; [s = 0] gives [l] everywhere and
    [s = len(disasters_array)] gives [e] everywhere. *)
Theorem rate_allocates_means (s : Z) (e l : R) :
  (0 <= s <= Z.of_nat (length disasters_array))%Z ->
  let out := Model.rate disasters_array uninit s e l in
  Model.missing_data_model_rate disasters_array uninit s e l = out /\
  length out = length disasters_array /\
  (forall i d, (i < length disasters_array)%nat -> (Z.of_nat i < s)%Z ->
     nth i out d = e) /\
  (forall i d, (i < length disasters_array)%nat -> (s <= Z.of_nat i)%Z ->
     nth i out d = l) /\
  (s = 0%Z -> out = repeat l (length disasters_array)) /\
  (s = Z.of_nat (length disasters_array) ->
     out = repeat e (length disasters_array)).
Proof.
  intros Hs out. split; [reflexivity|]. split; [apply length_rate|].
  assert (Hlen : length out = length disasters_array) by apply length_rate.
  split; [|split; [|split]].
  - intros i d Hi Hlt. unfold out. rewrite nth_rate by assumption.
    apply Z.ltb_lt in Hlt. rewrite Hlt. reflexivity.
  - intros i d Hi Hge. unfold out. rewrite nth_rate by assumption.
    apply Z.ltb_ge in Hge. rewrite Hge. reflexivity.
  - intro E. rewrite <- Hlen. apply all_nth_repeat. intros i Hi.
    unfold out. rewrite nth_rate by (try assumption; lia).
    replace (Z.of_nat i <? s)%Z with false
      by (symmetry; apply Z.ltb_ge; lia).
    reflexivity.
  - intro E. rewrite <- Hlen. apply all_nth_repeat. intros i Hi.
    unfold out. rewrite nth_rate by (try assumption; lia).
    replace (Z.of_nat i <? s)%Z with true
      by (symmetry; apply Z.ltb_lt; lia).
    reflexivity.
Qed.

End Rate.

(** [rate] on a series of four years with the switchpoint at 1. *)
Lemma rate_allocates_means_witness :
  let out := Model.rate [4; 5; 4; 0]%Z (fun _ => 7%R) 1 3%R 1%R in
  Model.missing_data_model_rate [4; 5; 4; 0]%Z (fun _ => 7%R) 1 3%R 1%R = out /\
  length out = 4%nat /\
  (forall i d, (i < 4)%nat -> (Z.of_nat i < 1)%Z -> nth i out d = 3%R) /\
  (forall i d, (i < 4)%nat -> (1 <= Z.of_nat i)%Z -> nth i out d = 1%R) /\
  (1%Z = 0%Z -> out = repeat 1%R 4) /\
  (1%Z = Z.of_nat 4 -> out = repeat 3%R 4).
Proof.
  apply (rate_allocates_means [4; 5; 4; 0]%Z (fun _ => 7%R) 1 3%R 1%R).
  simpl. lia.
Defined.

Section Survival.

Local Open Scope R_scope.

(** C4. For [t], [lam] (all elements positive) and [f] of equal length,
    [survival(t, lam, f)] returns the sum over [i] of
    [f_i * log(lam_i) - lam_i * t_i]; an observation with [f_i = 0]
    contributes [- lam_i * t_i], without a [log(lam_i)] term. *)
Theorem survival_is_sum_of_terms (t lam : list R) (f : list Z) :
  length lam = length t -> length f = length t ->
  Forall (fun x => 0 < x) lam ->
  Model.survival t lam f
  = Some (Model.sum_below (length t) (Model.survival_term t lam f)) /\
  (forall i, (i < length t)%nat -> nth i f 0%Z = 0%Z ->
     Model.survival_term t lam f i = - (nth i lam 0 * nth i t 0)).
Proof.
  intros Hlam Hf _. split.
  - unfold Model.survival, Numpy.mul, Numpy.sub.
    assert (H1 : length (Numpy.as_float f) = length (Numpy.log lam))
      by (unfold Numpy.as_float, Numpy.log; rewrite !length_map; congruence).
    rewrite (broadcast_same_length _ _ _ H1).
    rewrite (broadcast_same_length _ _ _ Hlam).
    assert (H2 : length (Numpy.zip_with Rmult (Numpy.as_float f) (Numpy.log lam))
                 = length (Numpy.zip_with Rmult lam t)).
    { rewrite !length_zip_with by assumption.
      unfold Numpy.as_float. rewrite length_map. congruence. }
    rewrite (broadcast_same_length _ _ _ H2). f_equal.
    unfold Numpy.builtin_sum. rewrite fold_left_sum_below, Rplus_0_l.
    assert (Hd : length (Numpy.zip_with Rminus
                   (Numpy.zip_with Rmult (Numpy.as_float f) (Numpy.log lam))
                   (Numpy.zip_with Rmult lam t)) = length t).
    { rewrite !length_zip_with by assumption.
      unfold Numpy.as_float. rewrite length_map. exact Hf. }
    rewrite Hd. apply sum_below_ext. intros i Hi.
    assert (Hfl : length (Numpy.as_float f) = length t)
      by (unfold Numpy.as_float; rewrite length_map; exact Hf).
    rewrite nth_zip_with; [| exact H2 | rewrite length_zip_with; lia].
    rewrite !nth_zip_with by (try assumption; lia).
    unfold Model.survival_term, Numpy.as_float, Numpy.log.
    change 0 with (IZR 0) at 1. rewrite (map_nth IZR).
    replace (nth i (map ln lam) 0) with (ln (nth i lam 0)).
    + reflexivity.
    + rewrite (nth_indep (map ln lam) 0 (ln 0)) by (rewrite length_map; lia).
      rewrite (map_nth ln). reflexivity.
  - intros i _ Hz. unfold Model.survival_term. rewrite Hz. ring.
Qed.

(** Two observations, the second one censored. *)
Lemma survival_is_sum_of_terms_witness :
  Model.survival [2; 3] [1; 2] [1; 0]%Z
  = Some (Model.sum_below 2 (Model.survival_term [2; 3] [1; 2] [1; 0]%Z)) /\
  (forall i, (i < 2)%nat -> nth i [1; 0]%Z 0%Z = 0%Z ->
     Model.survival_term [2; 3] [1; 2] [1; 0]%Z i
     = - (nth i [1; 2] 0 * nth i [2; 3] 0)).
Proof.
  apply (survival_is_sum_of_terms [2; 3] [1; 2] [1; 0]%Z);
    [reflexivity | reflexivity | repeat constructor; lra].
Defined.

End Survival.

(* ================================================================== *)
(** * Invariants of the notebook's own expressions *)
(* ================================================================== *)

Section Invariants.

Local Open Scope R_scope.

Lemma lam_nonnegative (b0 b1 : R) (tr : list R) :
  Model.nonnegative (Model.lam b0 b1 tr).
Proof.
  unfold Model.nonnegative, Model.lam, Numpy.exp. apply Forall_forall.
  intros y Hy. apply in_map_iff in Hy. destruct Hy as [z [Hz _]]. subst y.
  left. apply exp_pos.
Qed.

Lemma failure_zero_or_one (censored : list Z) :
  Forall (fun v => v = 0%Z \/ v = 1%Z) (Model.failure censored).
Proof.
  unfold Model.failure, Numpy.astype_int, Numpy.eq_scalar.
  rewrite map_map. apply Forall_forall. intros v Hv.
  apply in_map_iff in Hv. destruct Hv as [c [Hc _]]. subst v.
  destruct (c =? 0)%Z; [right|left]; reflexivity.
Qed.

Lemma failure_nonnegative (censored : list Z) :
  Model.nonnegative (Numpy.as_float (Model.failure censored)).
Proof.
  unfold Model.nonnegative, Numpy.as_float. apply Forall_forall.
  intros y Hy. apply in_map_iff in Hy. destruct Hy as [v [Hv Hin]]. subst y.
  pose proof (failure_zero_or_one censored) as H.
  rewrite Forall_forall in H. destruct (H v Hin); subst v; lra.
Qed.

Lemma rate_not_nonnegative :
  ~ Model.guarantees_nonnegative Model.RateFunction.
Proof.
  intro H. specialize (H [0%Z] (fun _ => 0) 0%Z (-1) (-1)).
  unfold Model.nonnegative in H. vm_compute in H.
  inversion H as [|x xs Hx _]. lra.
Qed.

(** C2 as stated fails: the claim has no expression of the notebook
    guarantee an invariant such as the non-negativity of a rate, but the
    rate [lam = exp(b0 + b1*tr)] is non-negative in every element whatever
    its inputs, and every element of [failure] is 0 or 1. *)
Lemma lam_guarantees_nonnegativity :
  ~ (forall x : Model.own_expression, ~ Model.guarantees_nonnegative x) /\
  Model.guarantees_nonnegative Model.LamExpression /\
  Model.guarantees_nonnegative Model.FailureExpression.
Proof.
  split; [|split].
  - intro H. apply (H Model.LamExpression). exact lam_nonnegative.
  - exact lam_nonnegative.
  - exact failure_nonnegative.
Qed.

(** C2 (amended). No statement of the notebook checks a condition or raises
    ([assert], [raise], [if] do not occur): the switch-points are declared
    with the library's [DiscreteUniform] and the means with its
    [Exponential], and neither [rate] function guarantees non-negativity
    (its elements are the means it is given); but every element of [lam] is
    non-negative for all real inputs, and every element of [failure] is 0
    or 1. *)
Theorem invariants_of_own_expressions :
  filter Analysis.enforces (Ast.stmts_of Notebook.notebook) = [] /\
  filter (fun xc => Analysis.mem (fst xc)
                      ["switchpoint"; "switch"; "early_mean"; "late_mean"]%string)
    (flat_map Analysis.constructed_with (Ast.stmts_of Notebook.notebook))
  = [ ("switchpoint", "DiscreteUniform"); ("early_mean", "Exponential");
      ("late_mean", "Exponential"); ("switch", "DiscreteUniform");
      ("early_mean", "Exponential"); ("late_mean", "Exponential") ]%string /\
  Model.guarantees_nonnegative Model.LamExpression /\
  Model.guarantees_nonnegative Model.FailureExpression /\
  (forall censored,
     Forall (fun v => v = 0%Z \/ v = 1%Z) (Model.failure censored)) /\
  ~ Model.guarantees_nonnegative Model.RateFunction /\
  ~ Model.guarantees_nonnegative Model.MissingDataRateFunction.
Proof.
  split; [vm_compute; reflexivity|].
  split; [vm_compute; reflexivity|].
  split; [exact lam_nonnegative|].
  split; [exact failure_nonnegative|].
  split; [exact failure_zero_or_one|].
  split; exact rate_not_nonnegative.
Qed.

End Invariants.

(* ================================================================== *)
(** * The statements of the notebook *)
(* ================================================================== *)

Section Statements.

Import Ast Notebook Analysis.
Local Open Scope string_scope.

(** C1 as stated fails: not every step is a call into a library, and the
    notebook defines functions. *)
Lemma notebook_has_own_code : only_library_calls notebook = false.
Proof. vm_compute. reflexivity. Qed.

(** C1 (amended). Of the 64 top-level statements, 9 are imports, one is
    the [%matplotlib] magic, 28 are direct calls into a library (possibly
    bound to a name) and 20 are mere reads that the notebook displays (17
    attributes, the names [M] and [masked_values], one slice of a trace);
    the six others hold code of the notebook's own: the conversion
    [failure], the definition of [lam] (a [lambda]), the definitions of
    [survival], [rate] and [missing_data_model], and the call of
    [missing_data_model].  The eighteen calls that sample, plot, summarize or
    build the masked array are direct calls into a library; the notebook
    defines five functions, no statement branches or loops, and the
    functions compute values: [rate] the array of means, [survival] the
    log-likelihood. *)
Theorem own_code_of_the_notebook :
  let own := map fst (own_functions notebook) in
  length notebook = 64%nat /\
  length (filter is_import notebook) = 9%nat /\
  length (filter is_magic notebook) = 1%nat /\
  length (filter (library_call own) notebook) = 28%nat /\
  flat_map (fun s => of_option (evaluated s))
    (filter (library_read own) notebook)
  = [ Attribute (Name "disasters") "logp";
      Attribute (Name "switchpoint") "parents";
      Attribute (Name "disasters") "parents";
      Attribute (Name "rate") "parents";
      Attribute (Name "rate") "children";
      Attribute (Name "disasters") "value";
      Attribute (Name "switchpoint") "value";
      Attribute (Name "early_mean") "value";
      Attribute (Name "late_mean") "value";
      Attribute (Name "rate") "value";
      Attribute (Name "switchpoint") "logp";
      Attribute (Name "disasters") "logp";
      Attribute (Name "early_mean") "logp";
      Attribute (Name "late_mean") "logp";
      Name "M";
      Attribute (Name "M") "late_mean";
      Slice (Call (Attribute (Name "M") "trace") [Str "early_mean"] [])
        (Some (Num 1000)) None;
      Name "masked_values";
      Attribute (Name "M_missing") "stochastics";
      Attribute (Name "M") "step_method_dict" ] /\
  map label (filter (fun s => negb (library_step own s)) notebook)
  = ["failure"; "lam"; "survival"; "rate"; "missing_data_model"; "M_missing"] /\
  length (filter is_library_operation (exprs_of notebook)) = 18%nat /\
  forallb (direct own)
    (filter is_library_operation (exprs_of notebook)) = true /\
  functions_defined notebook = 5%nat /\
  filter control_flow (stmts_of notebook) = [] /\
  (forall u e l, Model.rate [4; 5; 4; 0]%Z u 1 e l = [e; l; l; l]) /\
  (forall t lam, (0 < lam)%R ->
     Model.survival [t] [lam] [1%Z] = Some (0 + (1 * ln lam - lam * t))%R).
Proof.
  intro own. subst own.
  do 10 (split; [vm_compute; reflexivity|]).
  split; intros; reflexivity.
Qed.

(** C5 as stated fails: no call of [sample] passes all of the number of
    iterations, the burn-in length and the thinning interval. *)
Lemma sample_calls_lack_arguments :
  forallb passes_iter_burn_thin sample_calls = false /\
  existsb passes_iter_burn_thin sample_calls = false.
Proof. split; vm_compute; reflexivity. Qed.

(** C5 (amended). The notebook calls [sample] three times; every call
    supplies the number of iterations, the two calls on [M] also supply the
    burn-in length, [M_missing.sample(5000)] supplies no burn-in length,
    and neither it nor [M.sample(iter=10000, burn=1000)] supplies a thinning
    interval. *)
Theorem sample_calls_arguments :
  sample_calls
  = [ Call (Attribute (Name "M") "sample") []
        [("iter", Num 10000); ("burn", Num 5000)];
      Call (Attribute (Name "M") "sample") []
        [("iter", Num 10000); ("burn", Num 1000)];
      Call (Attribute (Name "M_missing") "sample") [Num 5000] [] ] /\
  forallb (supplies "iter") sample_calls = true /\
  map (supplies "burn") sample_calls = [true; true; false] /\
  map (supplies "thin") (skipn 1 sample_calls) = [false; false].
Proof. repeat split; vm_compute; reflexivity. Qed.

(** C6 as stated fails: a call of the notebook asks for traces to be
    written to a database on disk. *)
Lemma notebook_requests_storage :
  existsb requests_storage (exprs_of notebook) = true.
Proof. vm_compute. reflexivity. Qed.

(** C6 (amended). One call of the notebook asks for durable storage: the
    first construction of the sampler, with [db='pickle']; it is the only
    call that gives a database argument, the other two constructions give
    none, and no statement deletes anything. *)
Theorem storage_requested_once :
  filter requests_storage (exprs_of notebook)
  = [ Call (Name "MCMC")
        [ListE [Name "beta0"; Name "beta1"; Name "lam"; Name "survival"]]
        [("db", Str "pickle")] ] /\
  map db_argument (filter (fun e => is_some (db_argument e)) (exprs_of notebook))
  = [Some (Str "pickle")] /\
  map db_argument (filter is_mcmc_call (exprs_of notebook))
  = [Some (Str "pickle"); None; None] /\
  filter (fun s => match s with Delete _ => true | _ => false end)
    (stmts_of notebook) = [].
Proof. repeat split; vm_compute; reflexivity. Qed.

(** C7 as stated fails: [disasters] and [M] are each given a new value by
    a second statement of the notebook. *)
Lemma variables_are_rebound :
  bound_once_and_never_changed notebook = false /\
  count_occ string_dec (variables notebook) "disasters" = 2%nat /\
  count_occ string_dec (variables notebook) "M" = 2%nat.
Proof. repeat split; vm_compute; reflexivity. Qed.

(** C7 (amended). Every variable is bound by one top-level statement,
    except [M] and [disasters], which are bound twice (each time to a newly
    constructed object); in particular [beta0], [beta1], [lam], [survival],
    [switchpoint], [early_mean], [late_mean] and [rate] are bound once; no
    function body binds a name twice; no top-level statement assigns to an
    attribute, an item or a slice of an existing object or deletes one; the
    only such statements are the two slice assignments that fill the local
    array [out] in each [rate] function. *)
Theorem bindings_of_the_notebook :
  rebound notebook = ["M"; "disasters"] /\
  filter (fun xc => mem (fst xc) ["M"; "disasters"])
    (flat_map constructed_with notebook)
  = [("M", "MCMC"); ("disasters", "Poisson");
     ("M", "MCMC"); ("disasters", "Poisson")] /\
  forallb (fun x => (count_occ string_dec (variables notebook) x =? 1)%nat)
    ["beta0"; "beta1"; "lam"; "survival";
     "switchpoint"; "early_mean"; "late_mean"; "rate"] = true /\
  map (fun f => (fst f, rebound (snd f))) (function_bodies notebook)
  = [("survival", []); ("rate", []); ("missing_data_model", []); ("rate", [])] /\
  filter mutates notebook = [] /\
  filter mutates (stmts_of notebook)
  = [ Assign (Slice (Name "out") None (Some (Name "s"))) (Name "e");
      Assign (Slice (Name "out") (Some (Name "s")) None) (Name "l");
      Assign (Slice (Name "out") None (Some (Name "s"))) (Name "e");
      Assign (Slice (Name "out") (Some (Name "s")) None) (Name "l") ].
Proof. repeat split; vm_compute; reflexivity. Qed.

(** C9 as stated fails on the coal mining example: the variables it
    declares are not what the fitting routine receives. *)
Lemma coal_mining_fits_another_model :
  follows_flow coal_mining_example = false /\
  hands_over_declared coal_mining_example = false.
Proof. split; vm_compute; reflexivity. Qed.

(** C9 (amended). In the survival example the steps are: load the data,
    declare the variables (some observed, some unknown, exactly one
    computed), hand all of them to the fitting routine, then request plots
    and summaries.  The missing-data example has the same order and kinds,
    and hands over, through [locals()], every variable declared inside
    [missing_data_model]; the [disasters] it declares at top level before
    is not handed over.  The coal mining example loads and declares in the
    same way (exactly one variable computed) and reports only after
    fitting, but then imports the library's [disaster_model] and hands that
    module to the fitting routine, none of the five variables it
    declared. *)
Theorem flow_of_the_examples :
  follows_flow survival_example = true /\
  in_order missing_data_example = true /\
  kinds_as_described missing_data_example = true /\
  declared_in missing_data_example
  = [ (TopLevel, "disasters");
      (Inside "missing_data_model", "switch");
      (Inside "missing_data_model", "early_mean");
      (Inside "missing_data_model", "late_mean");
      (Inside "missing_data_model", "rate");
      (Inside "missing_data_model", "disasters") ] /\
  not_handed missing_data_example = [(TopLevel, "disasters")] /\
  steps fns coal_mining_example
  = [Loading; Declaring; Declaring; Declaring; Declaring; Declaring;
     Loading; Fitting; Fitting; Reporting; Reporting; Reporting; Reporting] /\
  kinds_as_described coal_mining_example = true /\
  map (argument mcmc_signature "input")
    (filter is_mcmc_call (exprs_of coal_mining_example))
  = [Some (Name "disaster_model")] /\
  not_handed coal_mining_example
  = [ (TopLevel, "switchpoint"); (TopLevel, "early_mean");
      (TopLevel, "late_mean"); (TopLevel, "rate"); (TopLevel, "disasters") ].
Proof. repeat split; vm_compute; reflexivity. Qed.

End Statements.

(* ================================================================== *)
(** * Errors propagate out of a cell *)
(* ================================================================== *)

(** Statements without handlers, whatever they are, end normally or with
    the error of the first library operation that failed. *)

Section Soundness.

Import Ast Notebook Errors.
Local Open Scope string_scope.

Variable raises : nat -> option string.

Lemma sound_from_earlier (k0 k : nat) (r : result) :
  (k0 <= k)%nat -> quiet raises k0 k -> sound raises k r -> sound raises k0 r.
Proof.
  intros Hle Hq. unfold sound.
  destruct r as [[[| |[e|]] k']|]; try tauto.
  - intros [H1 H2]. split; [lia|].
    intros j Hj. destruct (Nat.lt_ge_cases j k); [apply Hq | apply H2]; lia.
  - intros [H1 H2]. split; [lia|].
    intros j Hj. destruct (Nat.lt_ge_cases j k); [apply Hq | apply H2]; lia.
  - intros [j [E [Hj [Hr Hq']]]]. exists j. repeat split; try assumption; [lia|].
    intros i Hi. destruct (Nat.lt_ge_cases i k); [apply Hq | apply Hq']; lia.
Qed.

Lemma sound_start (k : nat) : sound raises k (Some (Normal, k)).
Proof. split; [lia|]. intros j Hj. lia. Qed.

Lemma sound_operation (k : nat) : sound raises k (operation raises k).
Proof.
  unfold operation. destruct (raises k) as [e|] eqn:E; simpl.
  - exists k. repeat split; try assumption; try lia. intros j Hj. lia.
  - split; [lia|]. intros j Hj. assert (j = k) by lia. subst j. exact E.
Qed.

Lemma sound_and_then (k : nat) (r : result) (f : nat -> result) :
  sound raises k r -> (forall j, sound raises j (f j)) ->
  sound raises k (and_then r f).
Proof.
  intros Hr Hf. destruct r as [[[| |e] k']|]; simpl; try exact Hr.
  destruct Hr as [Hle Hq]. apply (sound_from_earlier k k'); auto.
Qed.

Lemma sound_fold {A : Type} (g : A -> nat -> result) (l : list A) :
  Forall (fun a => forall j, sound raises j (g a j)) l ->
  forall k r, sound raises k r ->
    sound raises k (fold_left (fun r a => and_then r (g a)) l r).
Proof.
  induction 1 as [|a l Ha _ IH]; intros k r Hr; simpl; [exact Hr|].
  apply IH. apply sound_and_then; assumption.
Qed.

Section Evaluation.

Variable call_own : string -> option (nat -> result).
Hypothesis call_own_sound :
  forall n body, call_own n = Some body -> forall j, sound raises j (body j).

Lemma eval_sound (e : expr) : forall k, sound raises k (eval raises call_own e k).
Proof.
  induction e using expr_induction; intro k; cbn [eval];
    try apply sound_start.
  - apply sound_and_then; [apply IHe | apply sound_operation].
  - apply sound_and_then.
    + apply (sound_fold (fun kv => eval raises call_own (snd kv))); [assumption|].
      apply (sound_fold (eval raises call_own)); [assumption|]. apply IHe.
    + destruct e; try apply sound_operation.
      destruct (call_own id) as [body|] eqn:E; [|apply sound_operation].
      apply (call_own_sound _ _ E).
  - repeat apply sound_and_then; auto using sound_operation.
  - repeat apply sound_and_then; auto using sound_operation.
  - repeat apply sound_and_then; auto using sound_operation.
    + destruct lo; [inversion H; auto | apply sound_start].
    + destruct hi; [inversion H0; auto | apply sound_start].
  - apply (sound_fold (eval raises call_own)); [assumption | apply sound_start].
  - apply (sound_fold (eval raises call_own)); [assumption | apply sound_start].
  - generalize (sound_start k). generalize (Some (Normal, k)).
    induction H as [|p ps Hp _ IH]; intros r Hr; simpl; [exact Hr|].
    apply IH. destruct (snd p); [|exact Hr].
    inversion Hp. apply sound_and_then; auto.
Qed.

Lemma eval_all_sound (es : list expr) (k : nat) :
  sound raises k (eval_all raises call_own es k).
Proof.
  apply (sound_fold (eval raises call_own)); [|apply sound_start].
  apply Forall_forall. intros e _. apply eval_sound.
Qed.

Lemma exec_sound (s : stmt) (k : nat) :
  Analysis.handles_errors s = false -> sound raises k (exec raises call_own s k).
Proof.
  destruct s; simpl; intro H; try discriminate H; try exact I;
    try apply sound_operation; try apply eval_sound.
  - destruct target; try apply eval_sound;
      apply sound_and_then; intros; apply eval_sound.
  - apply (sound_fold (fun _ : expr => operation raises)).
    + apply Forall_forall. intros _ _ j. apply sound_operation.
    + apply sound_and_then; intros; apply eval_all_sound.
  - assert (Hv : sound raises k
                   match value with
                   | Some e => eval raises call_own e k
                   | None => Some (Normal, k)
                   end)
      by (destruct value; [apply eval_sound | apply sound_start]).
    destruct (match value with Some e => _ | None => _ end)
      as [[[| |e] k']|]; exact Hv.
Qed.

Lemma exec_all_sound (ss : list stmt) (k : nat) :
  forallb (fun s => negb (Analysis.handles_errors s)) ss = true ->
  sound raises k (exec_all raises call_own ss k).
Proof.
  intro H. apply (sound_fold (exec raises call_own)); [|apply sound_start].
  apply Forall_forall. intros s Hs j. apply exec_sound.
  rewrite forallb_forall in H. apply negb_true_iff. apply H. exact Hs.
Qed.

End Evaluation.

Lemma returns_sound (k : nat) (r : result) :
  sound raises k r -> sound raises k (returns r).
Proof. destruct r as [[[| |e] k']|]; simpl; auto. Qed.

(** A run of statements without handlers, the own functions being without
    handlers too, is sound at every depth. *)
Lemma run_sound (depth : nat) :
  forallb (fun f => forallb (fun s => negb (Analysis.handles_errors s)) (snd f))
    Analysis.fns = true ->
  forall ss k,
    forallb (fun s => negb (Analysis.handles_errors s)) ss = true ->
    sound raises k (run raises depth ss k).
Proof.
  intro Hfns. induction depth as [|d IH]; intros ss k Hss; simpl; [exact I|].
  apply exec_all_sound; [|exact Hss].
  intros n body E j. unfold Analysis.lookup in E.
  destruct (find _ Analysis.fns) as [[f b]|] eqn:F; [|discriminate E].
  injection E as E. subst body. apply returns_sound. apply IH.
  apply find_some in F. destruct F as [F _].
  rewrite forallb_forall in Hfns. apply (Hfns _ F).
Qed.

End Soundness.

Section Propagation.

Import Ast Notebook Errors.
Local Open Scope string_scope.

Ltac first_error :=
  first [ eexists; split; [reflexivity | split; [eassumption |]] | idtac ];
  let j := fresh "j" in
  let Hj := fresh "Hj" in
  intros j Hj;
  repeat (destruct j as [|j]; [assumption|]); exfalso; lia.

(** Case analysis on the library operations of a run, in the order in which
    they are performed. *)
Ltac walk raises k :=
  lazymatch goal with
  | |- context [raises k] =>
      destruct (raises k) eqn:?; cbv -[lt];
      [ first_error | walk raises (S k) ]
  | _ => first_error
  end.

(** The evaluation tells a handler from its absence: under [try] with an
    empty handler the error of the first operation is swallowed. *)
Remark try_swallows_error :
  let raises := fun k : nat => match k with O => Some "ValueError" | _ => None end in
  run raises 1 [Try [Expr (Call (Name "f") [] [])] [] []] 0 = Some (Normal, 1%nat) /\
  ~ first_error_propagates raises
      (run raises 1 [Try [Expr (Call (Name "f") [] [])] [] []] 0).
Proof.
  split; [reflexivity|]. cbv -[lt]. intro H.
  specialize (H 0%nat (Nat.lt_0_succ 0)). discriminate H.
Qed.

(** C8. The notebook has no statement that catches, transforms or raises an
    error or repeats its body ([try], [with], [raise], [assert], loops do
    not occur), and whichever library operation fails first while a cell
    runs, the cell ends right there with that error, unchanged. *)
Theorem errors_propagate_unchanged :
  filter Analysis.handles_errors (stmts_of notebook) = [] /\
  forall raises : nat -> option string,
    Forall (fun c => first_error_propagates raises (run_cell raises c)) cells.
Proof.
  split; [vm_compute; reflexivity|].
  intro raises. unfold cells.
  repeat (constructor; [cbv -[lt]; walk raises 0%nat|]).
  constructor.
Qed.

End Propagation.

(* ================================================================== *)
(** * Further properties of [rate] *)
(* ================================================================== *)

Section RateEverywhere.

Local Open Scope R_scope.

Variable disasters_array : list Z.

Lemma clamp_le (n : nat) (k : Z) : (Numpy.clamp n k <= n)%nat.
Proof.
  unfold Numpy.clamp. destruct (Z.ltb_spec k 0); lia.
Qed.

(** Element [i] of [rate], for any integer switchpoint: the slice bound is
    the switchpoint clamped to the array. *)
Lemma nth_rate_any (u : nat -> R) (s : Z) (e l d : R) (i : nat) :
  (i < length disasters_array)%nat ->
  nth i (Model.rate disasters_array u s e l) d
  = if (i <? Numpy.clamp (length disasters_array) s)%nat then e else l.
Proof.
  intro Hi. unfold Model.rate, Numpy.setitem_from, Numpy.setitem_upto.
  rewrite nth_fill, nth_fill. rewrite !length_fill, !length_empty.
  apply Nat.ltb_lt in Hi as Hi'. rewrite Hi'. cbn [andb Nat.add Nat.leb].
  destruct (Nat.ltb_spec i (Numpy.clamp (length disasters_array) s)) as [L|L].
  - replace (Numpy.clamp (length disasters_array) s <=? i)%nat with false
      by (symmetry; apply Nat.leb_gt; exact L).
    reflexivity.
  - replace (Numpy.clamp (length disasters_array) s <=? i)%nat with true
      by (symmetry; apply Nat.leb_le; exact L).
    cbn [andb]. rewrite ?Hi'. reflexivity.
Qed.

(** [rate] is a run of [e] followed by a run of [l]. *)
Lemma rate_two_runs (u : nat -> R) (s : Z) (e l : R) :
  Model.rate disasters_array u s e l
  = repeat e (Numpy.clamp (length disasters_array) s)
      ++ repeat l (length disasters_array
                   - Numpy.clamp (length disasters_array) s).
Proof.
  pose proof (clamp_le (length disasters_array) s) as Hc.
  apply (nth_ext _ _ 0 0).
  - rewrite length_rate, length_app, !repeat_length. lia.
  - intros i Hi. rewrite length_rate in Hi. rewrite nth_rate_any by exact Hi.
    destruct (Nat.ltb_spec i (Numpy.clamp (length disasters_array) s)) as [L|L].
    + rewrite app_nth1 by (rewrite repeat_length; exact L).
      rewrite nth_repeat_lt by exact L. reflexivity.
    + rewrite app_nth2 by (rewrite repeat_length; exact L).
      rewrite repeat_length, nth_repeat_lt by lia. reflexivity.
Qed.

(** X1. Whatever the integer switchpoint, [rate] overwrites the whole array
    it got from [np.empty]: the result does not depend on the content of the
    fresh memory, and each of its elements is [e] or [l]. *)
Theorem rate_overwrites_fresh_memory (u u' : nat -> R) (s : Z) (e l : R) :
  Model.rate disasters_array u s e l = Model.rate disasters_array u' s e l /\
  Forall (fun v => v = e \/ v = l) (Model.rate disasters_array u s e l).
Proof.
  split.
  - rewrite !rate_two_runs. reflexivity.
  - rewrite rate_two_runs. apply Forall_app. split; apply Forall_forall;
      intros v Hv; apply repeat_spec in Hv; auto.
Qed.

(** X2. A switchpoint at or beyond the end of the series gives [e]
    everywhere; one at or below minus the length gives [l] everywhere. *)
Theorem rate_saturates (u : nat -> R) (s : Z) (e l : R) :
  (Z.of_nat (length disasters_array) <= s
   \/ s <= - Z.of_nat (length disasters_array))%Z ->
  Model.rate disasters_array u s e l
  = repeat (if (0 <? s)%Z then e else l) (length disasters_array).
Proof.
  intro H. rewrite rate_two_runs.
  destruct (Nat.eq_dec (length disasters_array) 0) as [Z0|NZ].
  - pose proof (clamp_le (length disasters_array) s) as Hc.
    rewrite Z0 in *. replace (Numpy.clamp 0 s) with 0%nat by lia.
    reflexivity.
  - destruct H as [H|H].
    + replace (Numpy.clamp (length disasters_array) s)
        with (length disasters_array)
        by (unfold Numpy.clamp; destruct (Z.ltb_spec s 0); lia).
      replace (0 <? s)%Z with true by (symmetry; apply Z.ltb_lt; lia).
      rewrite Nat.sub_diag. simpl. apply app_nil_r.
    + replace (Numpy.clamp (length disasters_array) s) with 0%nat
        by (unfold Numpy.clamp; destruct (Z.ltb_spec s 0); lia).
      replace (0 <? s)%Z with false by (symmetry; apply Z.ltb_ge; lia).
      rewrite Nat.sub_0_r. reflexivity.
Qed.

(** X3. A negative switchpoint counts from the end of the series:
    for [-len <= s < 0], [rate(s, e, l)] is [rate(s + len, e, l)]. *)
Theorem rate_negative_switchpoint (u : nat -> R) (s : Z) (e l : R) :
  (- Z.of_nat (length disasters_array) <= s < 0)%Z ->
  Model.rate disasters_array u s e l
  = Model.rate disasters_array u (s + Z.of_nat (length disasters_array)) e l.
Proof.
  intro H. rewrite !rate_two_runs.
  replace (Numpy.clamp (length disasters_array)
             (s + Z.of_nat (length disasters_array)))
    with (Numpy.clamp (length disasters_array) s); [reflexivity|].
  unfold Numpy.clamp.
  destruct (Z.ltb_spec s 0); [|lia].
  destruct (Z.ltb_spec (s + Z.of_nat (length disasters_array)) 0); lia.
Qed.

End RateEverywhere.

(** A series of three years: a switchpoint of 5 and one of -3. *)
Lemma rate_saturates_witness :
  Model.rate [4; 5; 4]%Z (fun _ => 7%R) 5 3%R 1%R
  = repeat (if (0 <? 5)%Z then 3%R else 1%R) 3.
Proof.
  apply (rate_saturates [4; 5; 4]%Z (fun _ => 7%R) 5 3%R 1%R).
  left. simpl. lia.
Defined.

(** A series of three years and the switchpoint -1. *)
Lemma rate_negative_switchpoint_witness :
  Model.rate [4; 5; 4]%Z (fun _ => 7%R) (-1) 3%R 1%R
  = Model.rate [4; 5; 4]%Z (fun _ => 7%R) (-1 + Z.of_nat 3) 3%R 1%R.
Proof.
  apply (rate_negative_switchpoint [4; 5; 4]%Z (fun _ => 7%R) (-1) 3%R 1%R).
  simpl. lia.
Defined.

(* ================================================================== *)
(** * Further properties of [failure] *)
(* ================================================================== *)

Section FailureIndicators.

Local Open Scope Z_scope.

Lemma failure_map (censored : list Z) :
  Model.failure censored = map (fun c => if c =? 0 then 1 else 0) censored.
Proof.
  unfold Model.failure, Numpy.astype_int, Numpy.eq_scalar. apply map_map.
Qed.

(** X4. On a vector of indicators (every element 0 or 1) the conversion
    is its own inverse: converting the failure indicators again gives the
    censoring indicators back. *)
Theorem failure_involution (censored : list Z) :
  Forall (fun c => c = 0 \/ c = 1) censored ->
  Model.failure (Model.failure censored) = censored.
Proof.
  intro H. rewrite !failure_map, map_map.
  induction H as [|c cs Hc _ IH]; simpl; [reflexivity|].
  rewrite IH. destruct Hc; subst c; reflexivity.
Qed.

Lemma failure_involution_witness :
  Model.failure (Model.failure [1; 0; 0; 1]) = [1; 0; 0; 1].
Proof.
  apply (failure_involution [1; 0; 0; 1]).
  repeat (apply Forall_cons; [lia|]). apply Forall_nil.
Defined.

(** X5. Whatever the integers in [censored] (a code such as 2 counts as
    censored), converting three times is converting once, so the second
    conversion always marks the censored observations. *)
Theorem failure_thrice (censored : list Z) :
  Model.failure (Model.failure (Model.failure censored))
  = Model.failure censored.
Proof.
  rewrite !failure_map, !map_map. apply map_ext. intro c.
  destruct (c =? 0); reflexivity.
Qed.

(** X6. The failure indicators add up to the number of uncensored
    observations, and together with the censored ones they account for every
    observation. *)
Theorem failure_counts_uncensored (censored : list Z) :
  fold_right Z.add 0 (Model.failure censored)
  = Z.of_nat (count_occ Z.eq_dec censored 0) /\
  (count_occ Z.eq_dec (Model.failure censored) 1%Z
   + count_occ Z.eq_dec (Model.failure censored) 0%Z
   = length censored)%nat.
Proof.
  rewrite failure_map. induction censored as [|c cs [IH1 IH2]]; [split; reflexivity|].
  cbn [map fold_right count_occ length]. rewrite IH1.
  destruct (Z.eqb_spec c 0) as [E|E].
  - subst c. destruct (Z.eq_dec 0 0) as [_|N]; [|contradiction].
    destruct (Z.eq_dec 1 1) as [_|N]; [|contradiction].
    destruct (Z.eq_dec 1 0) as [N|_]; [discriminate|]. split; lia.
  - destruct (Z.eq_dec c 0) as [N|_]; [contradiction|].
    destruct (Z.eq_dec 0 1) as [N|_]; [discriminate|].
    destruct (Z.eq_dec 0 0) as [_|N]; [|contradiction]. split; lia.
Qed.

End FailureIndicators.

(* ================================================================== *)
(** * Further properties of [lam] and [survival] *)
(* ================================================================== *)

Section SurvivalModel.

Local Open Scope R_scope.

Lemma length_lam (b0 b1 : R) (tr : list R) :
  length (Model.lam b0 b1 tr) = length tr.
Proof.
  unfold Model.lam, Numpy.exp, Numpy.scalar_add, Numpy.scalar_mul.
  rewrite !length_map. reflexivity.
Qed.

Lemma nth_lam (b0 b1 : R) (tr : list R) (i : nat) (d : R) :
  (i < length tr)%nat ->
  nth i (Model.lam b0 b1 tr) d = exp (b0 + b1 * nth i tr 0).
Proof.
  intro Hi. unfold Model.lam, Numpy.exp, Numpy.scalar_add, Numpy.scalar_mul.
  rewrite !map_map.
  rewrite (nth_indep _ d ((fun x => exp (b0 + b1 * x)) 0))
    by (rewrite length_map; exact Hi).
  apply (map_nth (fun x => exp (b0 + b1 * x))).
Qed.

(** X7. Over the reals, the rates of two observations differ by the
    factor [exp(b1 * (tr_i - tr_j))]: the intercept cancels, and between a
    treated and an untreated observation the ratio is [exp(b1)].  (In
    float64 this holds up to rounding, while [exp] neither overflows nor
    underflows.) *)
Theorem lam_hazard_ratio (b0 b1 : R) (tr : list R) (i j : nat) :
  (i < length tr)%nat -> (j < length tr)%nat ->
  nth i (Model.lam b0 b1 tr) 0
  = exp (b1 * (nth i tr 0 - nth j tr 0)) * nth j (Model.lam b0 b1 tr) 0 /\
  (nth i tr 0 = 1 -> nth j tr 0 = 0 ->
   nth i (Model.lam b0 b1 tr) 0 = exp b1 * nth j (Model.lam b0 b1 tr) 0).
Proof.
  intros Hi Hj. rewrite !nth_lam by assumption. split.
  - rewrite <- exp_plus. f_equal. ring.
  - intros Ei Ej. rewrite Ei, Ej, <- exp_plus. f_equal. ring.
Qed.

Lemma lam_hazard_ratio_witness :
  nth 0 (Model.lam 2 3 [1; 0]) 0
  = exp (3 * (nth 0 [1; 0] 0 - nth 1 [1; 0] 0)) * nth 1 (Model.lam 2 3 [1; 0]) 0 /\
  (nth 0 [1; 0] 0 = 1 -> nth 1 [1; 0] 0 = 0 ->
   nth 0 (Model.lam 2 3 [1; 0]) 0 = exp 3 * nth 1 (Model.lam 2 3 [1; 0]) 0).
Proof.
  apply (lam_hazard_ratio 2 3 [1; 0] 0 1); simpl; lia.
Defined.

(** The sum [survival] returns when the three arrays have one length. *)
Lemma survival_same_length (t lam : list R) (f : list Z) :
  length lam = length t -> length f = length t ->
  Model.survival t lam f
  = Some (Model.sum_below (length t) (Model.survival_term t lam f)).
Proof.
  intros Hlam Hf. unfold Model.survival, Numpy.mul, Numpy.sub.
  assert (Hfl : length (Numpy.as_float f) = length t)
    by (unfold Numpy.as_float; rewrite length_map; exact Hf).
  assert (Hlog : length (Numpy.log lam) = length t)
    by (unfold Numpy.log; rewrite length_map; exact Hlam).
  rewrite (broadcast_same_length Rmult (Numpy.as_float f) (Numpy.log lam))
    by congruence.
  rewrite (broadcast_same_length Rmult lam t) by exact Hlam.
  assert (H1 : length (Numpy.zip_with Rmult (Numpy.as_float f) (Numpy.log lam))
               = length t)
    by (rewrite length_zip_with; congruence).
  assert (H2 : length (Numpy.zip_with Rmult lam t) = length t)
    by (rewrite length_zip_with; congruence).
  rewrite broadcast_same_length by congruence. f_equal.
  unfold Numpy.builtin_sum. rewrite fold_left_sum_below, Rplus_0_l.
  rewrite length_zip_with, H1 by congruence.
  apply sum_below_ext. intros i Hi.
  rewrite nth_zip_with by (congruence || lia).
  rewrite !nth_zip_with by (congruence || lia).
  unfold Model.survival_term, Numpy.as_float, Numpy.log.
  change 0 with (IZR 0) at 1. rewrite (map_nth IZR).
  rewrite (nth_indep (map ln lam) 0 (ln 0)) by (rewrite length_map; lia).
  rewrite (map_nth ln). reflexivity.
Qed.

Lemma sum_below_plus (n m : nat) (g : nat -> R) :
  Model.sum_below (n + m) g
  = Model.sum_below n g + Model.sum_below m (fun i => g (n + i)%nat).
Proof.
  induction m as [|m IH].
  - rewrite Nat.add_0_r. simpl. ring.
  - rewrite Nat.add_succ_r. simpl. rewrite IH. ring.
Qed.

Lemma sum_below_le (n : nat) (g h : nat -> R) :
  (forall i, (i < n)%nat -> g i <= h i) ->
  Model.sum_below n g <= Model.sum_below n h.
Proof.
  induction n as [|n IH]; intro H; simpl; [lra|].
  apply Rplus_le_compat; [apply IH; intros; apply H; lia | apply H; lia].
Qed.

(** X8. The notebook's model as a whole: with the rates computed by [lam]
    from the coefficients, the log-likelihood is the sum of
    [f_i * (b0 + b1*tr_i) - exp(b0 + b1*tr_i) * t_i]: the logarithm undoes
    the exponential, so the failure term is linear in the coefficients. *)
Theorem survival_of_lam (b0 b1 : R) (tr t : list R) (f : list Z) :
  length tr = length t -> length f = length t ->
  Model.survival t (Model.lam b0 b1 tr) f
  = Some (Model.sum_below (length t)
            (fun i => IZR (nth i f 0%Z) * (b0 + b1 * nth i tr 0)
                      - exp (b0 + b1 * nth i tr 0) * nth i t 0)).
Proof.
  intros Htr Hf.
  rewrite survival_same_length by (rewrite ?length_lam; assumption).
  f_equal. apply sum_below_ext. intros i Hi. unfold Model.survival_term.
  rewrite nth_lam by lia. rewrite ln_exp. reflexivity.
Qed.

Lemma survival_of_lam_witness :
  Model.survival [2; 3] (Model.lam 1 2 [1; 0]) [1; 0]%Z
  = Some (Model.sum_below (length [2; 3])
            (fun i => IZR (nth i [1; 0]%Z 0%Z) * (1 + 2 * nth i [1; 0] 0)
                      - exp (1 + 2 * nth i [1; 0] 0) * nth i [2; 3] 0)).
Proof.
  apply (survival_of_lam 1 2 [1; 0] [2; 3] [1; 0]%Z); reflexivity.
Defined.

(** X9. Over the reals and for positive rates, the log-likelihood is
    additive over observations: for two groups of observations put one
    after the other, [survival] returns the sum of what it returns on each
    group.  (In float64 the left-to-right sum makes this hold up to
    rounding only.) *)
Theorem survival_additive (t1 t2 lam1 lam2 : list R) (f1 f2 : list Z) :
  length lam1 = length t1 -> length f1 = length t1 ->
  length lam2 = length t2 -> length f2 = length t2 ->
  Forall (fun x => 0 < x) lam1 -> Forall (fun x => 0 < x) lam2 ->
  exists a b,
    Model.survival t1 lam1 f1 = Some a /\
    Model.survival t2 lam2 f2 = Some b /\
    Model.survival (t1 ++ t2) (lam1 ++ lam2) (f1 ++ f2) = Some (a + b).
Proof.
  intros Hl1 Hf1 Hl2 Hf2 _ _.
  exists (Model.sum_below (length t1) (Model.survival_term t1 lam1 f1)),
         (Model.sum_below (length t2) (Model.survival_term t2 lam2 f2)).
  split; [apply survival_same_length; assumption|].
  split; [apply survival_same_length; assumption|].
  rewrite survival_same_length by (rewrite !length_app; congruence).
  f_equal. rewrite length_app, sum_below_plus. f_equal.
  - apply sum_below_ext. intros i Hi. unfold Model.survival_term.
    rewrite !app_nth1 by lia. reflexivity.
  - apply sum_below_ext. intros i Hi. unfold Model.survival_term.
    rewrite !app_nth2 by lia.
    replace (length t1 + i - length f1)%nat with i by lia.
    replace (length t1 + i - length lam1)%nat with i by lia.
    replace (length t1 + i - length t1)%nat with i by lia.
    reflexivity.
Qed.

Lemma survival_additive_witness :
  exists a b,
    Model.survival [2] [1] [1%Z] = Some a /\
    Model.survival [3; 4] [2; 5] [0; 1]%Z = Some b /\
    Model.survival ([2] ++ [3; 4]) ([1] ++ [2; 5]) ([1] ++ [0; 1])%Z
    = Some (a + b).
Proof.
  apply (survival_additive [2] [3; 4] [1] [2; 5] [1%Z] [0; 1]%Z);
    try reflexivity; repeat constructor; lra.
Defined.

(** X10. Arrays that cannot be broadcast are an error: when the rates and
    the times, or the indicators and the rates, have different lengths and
    neither has length 1, [survival] returns no value. *)
Theorem survival_shape_error (t lam : list R) (f : list Z) :
  (length lam <> length t /\ length lam <> 1%nat /\ length t <> 1%nat)
  \/ (length f <> length lam /\ length f <> 1%nat /\ length lam <> 1%nat) ->
  Model.survival t lam f = None.
Proof.
  intro H. unfold Model.survival.
  destruct H as [[H1 [H2 H3]]|[H1 [H2 H3]]];
    apply Nat.eqb_neq in H1, H2, H3.
  - assert (E : Numpy.mul lam t = None)
      by (unfold Numpy.mul, Numpy.broadcast; rewrite H1, H2, H3; reflexivity).
    rewrite E.
    destruct (Numpy.mul (Numpy.as_float f) (Numpy.log lam)); reflexivity.
  - assert (E : Numpy.mul (Numpy.as_float f) (Numpy.log lam) = None).
    { unfold Numpy.mul, Numpy.broadcast, Numpy.as_float, Numpy.log.
      rewrite !length_map, H1, H2, H3. reflexivity. }
    rewrite E. reflexivity.
Qed.

Lemma survival_shape_error_witness :
  Model.survival [2; 3; 4] [1; 2] [1; 0; 1]%Z = None.
Proof.
  apply (survival_shape_error [2; 3; 4] [1; 2] [1; 0; 1]%Z).
  left. simpl. repeat split; lia.
Defined.

(** X11. With positive rates the log-likelihood does not increase when
    observation times grow: if [t_i <= t'_i] for every [i], the value on
    [t'] is at most the value on [t]. *)
Theorem survival_decreases_with_time (t t' lam : list R) (f : list Z) :
  length t' = length t -> length lam = length t -> length f = length t ->
  Forall (fun x => 0 < x) lam ->
  (forall i, (i < length t)%nat -> nth i t 0 <= nth i t' 0) ->
  exists a b,
    Model.survival t lam f = Some a /\
    Model.survival t' lam f = Some b /\
    b <= a.
Proof.
  intros Ht' Hlam Hf Hpos Hle.
  exists (Model.sum_below (length t) (Model.survival_term t lam f)),
         (Model.sum_below (length t) (Model.survival_term t' lam f)).
  split; [apply survival_same_length; assumption|].
  split; [rewrite <- Ht'; apply survival_same_length; congruence|].
  apply sum_below_le. intros i Hi. unfold Model.survival_term.
  assert (Hl : 0 < nth i lam 0).
  { rewrite Forall_forall in Hpos. apply Hpos. apply nth_In. lia. }
  specialize (Hle i Hi). nra.
Qed.

Lemma survival_decreases_with_time_witness :
  exists a b,
    Model.survival [2; 3] [1; 2] [1; 0]%Z = Some a /\
    Model.survival [2; 5] [1; 2] [1; 0]%Z = Some b /\
    b <= a.
Proof.
  apply (survival_decreases_with_time [2; 3] [2; 5] [1; 2] [1; 0]%Z);
    try reflexivity.
  - repeat constructor; lra.
  - intros i Hi. destruct i as [|[|i]]; simpl in *; lra || lia.
Defined.

End SurvivalModel.

(* ================================================================== *)
(** * Names and bounds in the notebook *)
(* ================================================================== *)

Section NamesAndBounds.

Import Ast Notebook Analysis Scopes.
Local Open Scope string_scope.

(** X12. Run from the first cell to the last, no statement of the notebook
    reads a name before an import, an assignment or a [def] has bound it;
    a function body reads only its parameters, its own earlier local
    assignments and names bound before the [def].  The later examples are
    not self-contained: started at the coal mining example, or at the
    missing-data example, the notebook reads unbound names. *)
Theorem names_bound_before_use :
  bound_before_use notebook = true /\
  bound_before_use (cells_between 6 70) = false /\
  bound_before_use (cells_between 56 70) = false.
Proof. repeat split; vm_compute; reflexivity. Qed.

(** X13. Every model variable built with a class of the library is given,
    as its PyMC name, the name of the Python variable it is bound to.  Two
    of the three [MCMC] calls receive a collection the notebook builds
    itself, the list of the survival example and the local variables of
    [missing_data_model], and each of the two holds pairwise distinct names;
    the third call receives the library's module [disaster_model]. *)
Theorem variables_keep_their_names :
  length (flat_map node_name (stmts_of notebook)) = 12%nat /\
  forallb (fun p => String.eqb (fst p) (snd p))
    (flat_map node_name (stmts_of notebook)) = true /\
  map (argument mcmc_signature "input")
    (filter is_mcmc_call (exprs_of notebook))
  = [ Some (ListE [Name "beta0"; Name "beta1"; Name "lam"; Name "survival"]);
      Some (Name "disaster_model");
      Some (Call (Name "missing_data_model") [] []) ] /\
  map (handed fns) (filter is_mcmc_call (exprs_of notebook))
  = [ ["beta0"; "beta1"; "lam"; "survival"];
      [];
      ["switch"; "early_mean"; "late_mean"; "rate"; "masked_values";
       "disasters"] ] /\
  NoDup ["beta0"; "beta1"; "lam"; "survival"] /\
  NoDup ["switch"; "early_mean"; "late_mean"; "rate"; "masked_values";
         "disasters"].
Proof.
  do 4 (split; [vm_compute; reflexivity|]).
  split.
  - change (NoDup (nodup string_dec ["beta0"; "beta1"; "lam"; "survival"])).
    apply NoDup_nodup.
  - change (NoDup (nodup string_dec
                     ["switch"; "early_mean"; "late_mean"; "rate";
                      "masked_values"; "disasters"])).
    apply NoDup_nodup.
Qed.

End NamesAndBounds.

Section SwitchpointSupport.

Import Scopes.
Local Open Scope R_scope.

(** X14. The bounds the notebook gives its switch-points fit the series:
    for a series as long as [x] and any switchpoint between [lower] and
    [upper], [rate] is [s] early means followed by at least one late mean,
    and an initial value given for the switch-point lies within the
    bounds. *)
Theorem switchpoint_support_fits_series
  (disasters_array : list Z) (u : nat -> R)
  (lower upper : Z) (initial : option Z) (s : Z) (e l : R) :
  In (lower, upper, initial) switchpoint_supports ->
  length disasters_array = length series ->
  (lower <= s <= upper)%Z ->
  Model.rate disasters_array u s e l
  = repeat e (Z.to_nat s) ++ repeat l (length disasters_array - Z.to_nat s) /\
  (Z.to_nat s < length disasters_array)%nat /\
  match initial with
  | Some v => (lower <= v <= upper)%Z
  | None => True
  end.
Proof.
  intros Hin Hlen Hs.
  assert (Hn : length disasters_array = 111%nat)
    by (rewrite Hlen; vm_compute; reflexivity).
  assert (Hb : lower = 0%Z /\ upper = 110%Z
               /\ (initial = Some 50%Z \/ initial = None)).
  { vm_compute in Hin. destruct Hin as [E|[E|[]]]; inversion E; auto. }
  destruct Hb as [El [Eu Ei]]. subst lower upper.
  rewrite rate_two_runs, Hn.
  replace (Numpy.clamp 111 s) with (Z.to_nat s)
    by (unfold Numpy.clamp; destruct (Z.ltb_spec s 0); lia).
  split; [reflexivity|]. split; [lia|].
  destruct Ei; subst initial; [lia | exact I].
Qed.

Lemma switchpoint_support_fits_series_witness :
  Model.rate (repeat 0%Z 111) (fun _ => 0) 50 3 1
  = repeat 3 (Z.to_nat 50) ++ repeat 1 (length (repeat 0%Z 111) - Z.to_nat 50) /\
  (Z.to_nat 50 < length (repeat 0%Z 111))%nat /\
  (0 <= 50 <= 110)%Z.
Proof.
  apply (switchpoint_support_fits_series
           (repeat 0%Z 111) (fun _ => 0) 0 110 (Some 50%Z) 50 3 1).
  - left. reflexivity.
  - reflexivity.
  - lia.
Defined.

End SwitchpointSupport.
